(** * Label distribution loss (Dist-PU): a shallow embedding of
      [src/losses/distributionLoss.py] and the properties of its
      construction, its soft histogram and its forward pass.

    Number model.  Tensor entries and Python floats are idealised as real
    numbers ([R]): [torch.sigmoid] is the logistic function, [F.l1_loss] the
    mean absolute difference, and the conversions [.float()] and [.to(device)]
    keep values unchanged.  One quantity of the program is decided by
    rounding and is therefore computed bit-exactly in binary64 with Rocq's
    primitive floats: the number of elements of [torch.arange], which the
    library obtains as the ceiling of [(end - start) / step] evaluated in
    double precision. *)

From Stdlib Require Import Reals Lra Lia ZArith String List Bool Permutation.
From Stdlib Require Import PrimFloat FloatOps SpecFloat.
Import ListNotations.

Local Open Scope R_scope.

(* ------------------------------------------------------------------ *)
(** * Python: exceptions and a state-and-exception monad *)

Module Py.

(** The exceptions the class can raise.  [ZeroDivisionError] carries the
    source expression whose evaluation raised it (what the traceback
    shows); the others carry their message.  [AssertionError] is what a
    build without CUDA raises when a tensor is sent to a CUDA device. *)
Inductive exn : Type :=
| ZeroDivisionError (expr : string)
| NotImplementedError (msg : string)
| RuntimeError (msg : string)
| IndexError (msg : string)
| ValueError (msg : string)
| AssertionError (msg : string).

Inductive outcome (A : Type) : Type :=
| Return (a : A)
| Raise (e : exn).
Arguments Return {A} a.
Arguments Raise {A} e.

(** A computation over a store [S]: the store after the call together
    with the value returned or the exception raised. *)
Definition M (S A : Type) : Type := S -> S * outcome A.

Definition ret {S A} (a : A) : M S A := fun s => (s, Return a).

Definition raise {S A} (e : exn) : M S A := fun s => (s, Raise e).

Definition bind {S A B} (c : M S A) (k : A -> M S B) : M S B :=
  fun s =>
    match c s with
    | (s', Return a) => k a s'
    | (s', Raise e) => (s', Raise e)
    end.

(** Read an attribute of the store. *)
Definition gets {S A} (f : S -> A) : M S A := fun s => (s, Return (f s)).

(** Python's true division [a / b] of numbers: division by zero raises. *)
Definition truediv {S} (expr : string) (a b : R) : M S R :=
  if Req_dec_T b 0 then raise (ZeroDivisionError expr) else ret (a / b).

End Py.
Export Py.

Notation "x <- c1 ;; c2" := (Py.bind c1 (fun x => c2))
  (at level 61, c1 at next level, right associativity).
Notation "c1 ;; c2" := (Py.bind c1 (fun _ => c2))
  (at level 61, right associativity).

(* ------------------------------------------------------------------ *)
(** * Tensors and arrays as lists *)

(** A one-dimensional tensor, or a column of shape [(n, 1)], is the list of
    its entries; a two-dimensional tensor is the list of its rows. *)

Fixpoint zip_with {A B C} (f : A -> B -> C) (x : list A) (y : list B) : list C :=
  match x, y with
  | a :: x', b :: y' => f a b :: zip_with f x' y'
  | _, _ => []
  end.

Definition numel {A} (x : list A) : Z := Z.of_nat (length x).

(** [x.sum()] *)
Definition tsum (x : list R) : R := fold_right Rplus 0 x.

(** Boolean-mask indexing [x[mask]] of tensors of one shape. *)
Fixpoint masked_select (x : list R) (mask : list bool) : list R :=
  match x, mask with
  | a :: x', b :: mask' =>
      if b then a :: masked_select x' mask' else masked_select x' mask'
  | _, _ => []
  end.

(** [x[i] = v] at a natural index inside the list. *)
Fixpoint list_set (x : list R) (i : nat) (v : R) : list R :=
  match x, i with
  | [], _ => []
  | _ :: x', O => v :: x'
  | a :: x', S i' => a :: list_set x' i' v
  end.

(** [a > b] on entries. *)
Definition Rgtb (a b : R) : bool := if Rlt_dec b a then true else false.

(** Events of construction that are visible outside the object: library
    calls that create or move tensors and arrays, and printed lines. *)

(** A [device] argument: the name the caller passes, and what the runtime
    answers when a tensor is placed on it: nothing for a device it has, the
    exception it raises otherwise (an invalid device string, a CUDA device on
    a machine or build without one). *)
Record Device : Type := {
  device_name : string;
  device_error : option Py.exn
}.

Definition cpu : Device := {| device_name := "cpu"; device_error := None |}.

(** A CUDA device in a build without CUDA. *)
Definition cuda_missing : Device :=
  {| device_name := "cuda";
     device_error := Some (AssertionError "Torch not compiled with CUDA enabled") |}.

Inductive event : Type :=
| TorchArange (stop step : R)
| NumpyZeros (n : Z)
| NumpyZerosLike
| PrintStr (line : string)
| PrintArray (a : list R)
| TorchFromNumpy (a : list R)
| TorchTo (d : Device).

(** The events that are computations on torch tensors. *)
Definition is_tensor_op (e : event) : bool :=
  match e with
  | TorchArange _ _ | TorchFromNumpy _ | TorchTo _ => true
  | NumpyZeros _ | NumpyZerosLike | PrintStr _ | PrintArray _ => false
  end.

Definition emit (e : event) : Py.M (list event) unit :=
  fun log => (log ++ [e], Return tt).

(** Python's [print]. *)
Definition print_str (s : string) : Py.M (list event) unit := emit (PrintStr s).
Definition print_array (a : list R) : Py.M (list event) unit := emit (PrintArray a).

(** ** Binary64 *)

Module Binary64.

(** The double nearest to an integer.  Python's [1 / n] on integers is the
    correctly rounded quotient, which for [|n| <= 2^53] is the binary64
    quotient of the converted operands. *)
Definition of_Z (n : Z) : float := SF2Prim (binary_normalize prec emax n 0 false).

(** [std::ceil] of a finite double, as an integer; [0] for a zero.  The
    quotients fed to it below are finite whenever [|num_bins| < 2^1023];
    a non-finite argument is given [0] here. *)
Definition ceil (f : float) : Z :=
  match Prim2SF f with
  | S754_finite s m e =>
      let v := if s then Z.neg m else Z.pos m in
      if (0 <=? e)%Z then (v * 2 ^ e)%Z else (- ((- v) / 2 ^ (- e)))%Z
  | _ => 0%Z
  end.

End Binary64.

(** ** numpy *)

Module np.

(** [np.zeros(n, dtype=float)] *)
Definition zeros (n : Z) : Py.M (list event) (list R) :=
  emit (NumpyZeros n) ;;
  if (n <? 0)%Z then raise (ValueError "negative dimensions are not allowed")
  else ret (repeat 0 (Z.to_nat n)).

(** [np.zeros_like(a)] *)
Definition zeros_like (a : list R) : Py.M (list event) (list R) :=
  emit NumpyZerosLike ;;
  ret (map (fun _ => 0) a).

(** [a[i] = v] with Python's indexing: a negative index counts from the
    end, an index outside the array raises [IndexError]. *)
Definition setitem {S} (a : list R) (i : Z) (v : R) : Py.M S (list R) :=
  let n := numel a in
  let j := if (i <? 0)%Z then (i + n)%Z else i in
  if ((0 <=? j) && (j <? n))%Z then ret (list_set a (Z.to_nat j) v)
  else raise (IndexError "index is out of bounds for axis 0").

(** [c * a] for a scalar [c], and [a + b] entry by entry. *)
Definition scale (c : R) (a : list R) : list R := map (fun x => c * x) a.
Definition add (a b : list R) : list R := zip_with Rplus a b.

End np.

(** ** torch *)

Module torch.

Definition sigmoid_scalar (x : R) : R := 1 / (1 + exp (- x)).

(** [torch.sigmoid(x)] *)
Definition sigmoid (x : list R) : list R := map sigmoid_scalar x.

(** [torch.ones_like(x)] *)
Definition ones_like (x : list R) : list R := map (fun _ => 1) x.

(** [x * c] for a scalar [c]. *)
Definition mul_scalar (x : list R) (c : R) : list R := map (fun a => a * c) x.

(** The number of elements of [torch.arange(0, stop, step)] for floating
    arguments: the ceiling of [(stop - start) / step], in binary64. *)
Definition arange_numel (stop step : float) : Z :=
  Binary64.ceil ((stop - 0) / step)%float.

(** [torch.arange(0, stop, step).view(1, -1).requires_grad_(False)]: the
    row [0, step, 2 step, ...] with [n] entries, [n] being the binary64
    element count.  The library rejects a zero step and bounds that
    disagree with the sign of the step. *)
Definition arange (stop step : R) (n : Z) : Py.M (list event) (list R) :=
  emit (TorchArange stop step) ;;
  if Req_dec_T step 0 then raise (RuntimeError "step must be nonzero")
  else if Rlt_dec 0 step then
    if Rle_dec 0 stop
    then ret (map (fun i => 0 + INR i * step) (seq 0 (Z.to_nat n)))
    else raise (RuntimeError "upper bound and larger bound inconsistent with step sign")
  else
    if Rle_dec stop 0
    then ret (map (fun i => 0 + INR i * step) (seq 0 (Z.to_nat n)))
    else raise (RuntimeError "upper bound and larger bound inconsistent with step sign").

(** [torch.from_numpy(a).requires_grad_(False).float()] *)
Definition from_numpy (a : list R) : Py.M (list event) (list R) :=
  emit (TorchFromNumpy a) ;;
  ret a.

(** [x.to(device)]: the tensor on the device, or the exception of the
    runtime for a device it cannot place tensors on. *)
Definition to (x : list R) (d : Device) : Py.M (list event) (list R) :=
  emit (TorchTo d) ;;
  match device_error d with
  | None => ret x
  | Some e => raise e
  end.

(** [x.view_as(other)]: the entries of [x] in the shape of [other]; the
    element counts must agree. *)
Definition view_as {S B} (x : list R) (other : list B) : Py.M S (list R) :=
  if (numel x =? numel other)%Z then ret x
  else raise (RuntimeError "shape is invalid for input size").

End torch.

Module F.

(** [F.l1_loss(input, target, reduction="mean")] for tensors of one
    shape.  (On an empty input the library returns nan, which has no real
    counterpart; [forward] never calls it on one.) *)
Definition l1_loss (input target : list R) : R :=
  tsum (zip_with (fun a b => Rabs (a - b)) input target) / INR (length input).

End F.

(* ------------------------------------------------------------------ *)
(** * The class [LabelDistributionLoss] *)

Record LabelDistributionLoss : Type := {
  prior : R;
  frac_prior : R;
  step : R;
  device : Device;
  t : list R;
  t_size : Z;
  dist : list R -> list R -> R;
  proxy_p : list R;
  proxy_mix : list R
}.

(** The [proxy == "polar"] branch of the constructor: the arrays
    [proxy_p] and [proxy_n]. *)
Definition polar_proxies (t_size : Z) : Py.M (list event) (list R * list R) :=
  proxy_p <- np.zeros t_size ;;
  proxy_n <- np.zeros_like proxy_p ;;
  proxy_p <- np.setitem proxy_p (-1) 1 ;;
  proxy_n <- np.setitem proxy_n 0 1 ;;
  ret (proxy_p, proxy_n).

(** [proxy_mix = prior * proxy_p + (1 - prior) * proxy_n] *)
Definition mix_proxies (prior : R) (proxy_p proxy_n : list R) : list R :=
  np.add (np.scale prior proxy_p) (np.scale (1 - prior) proxy_n).

(** The constructor, statement by statement; the log records the library
    calls and printed lines in the order they happen.  [step64] is the
    binary64 value of [self.step], from which [torch.arange] derives the
    number of bin centers. *)
Definition __init__ (prior : R) (device : Device) (num_bins : Z)
    (proxy dist : string) : Py.M (list event) LabelDistributionLoss :=
  frac_prior <- Py.truediv "1.0 / (2 * prior)" 1 (2 * prior) ;;
  step <- Py.truediv "1 / num_bins" 1 (IZR num_bins) ;;
  let step64 := (1 / Binary64.of_Z num_bins)%float in
  t <- torch.arange (1 + step) step (torch.arange_numel (1 + step64)%float step64) ;;
  let t_size := (num_bins + 1)%Z in
  dist_fn <- (if (dist =? "L1")%string then ret F.l1_loss
              else raise (NotImplementedError
                            ("The distance: " ++ dist ++ " is not defined!"))) ;;
  proxies <- (if (proxy =? "polar")%string then polar_proxies t_size
              else raise (NotImplementedError
                            ("The proxy: " ++ proxy ++ " is not defined!"))) ;;
  let proxy_p := fst proxies in
  let proxy_n := snd proxies in
  let proxy_mix := mix_proxies prior proxy_p proxy_n in
  print_str "#### Label Distribution Loss ####" ;;
  print_str "ground truth P:" ;;
  print_array proxy_p ;;
  print_str "ground truth U:" ;;
  print_array proxy_mix ;;
  proxy_p <- torch.from_numpy proxy_p ;;
  proxy_mix <- torch.from_numpy proxy_mix ;;
  t <- torch.to t device ;;
  proxy_p <- torch.to proxy_p device ;;
  proxy_mix <- torch.to proxy_mix device ;;
  ret {| prior := prior; frac_prior := frac_prior; step := step;
         device := device; t := t; t_size := t_size; dist := dist_fn;
         proxy_p := proxy_p; proxy_mix := proxy_mix |}.

(** ** [histogram] *)

(** Broadcasting of a row of width [a] against a row of width [b]. *)
Definition broadcast_width (a b : nat) : option nat :=
  if (a =? b)%nat then Some a
  else if (b =? 1)%nat then Some a
  else if (a =? 1)%nat then Some b
  else None.

Definition expand (w : nat) (row : list R) : list R :=
  if (length row =? w)%nat then row else repeat (hd 0 row) w.

(** [x.sum(dim=0)] of a tensor with [w] columns. *)
Definition sum_dim0 (w : nat) (rows : list (list R)) : list R :=
  fold_right (zip_with Rplus) (repeat 0 w) rows.

Definition histogram (scores : list R) : Py.M LabelDistributionLoss (list R) :=
  t_size <- gets t_size ;;
  t <- gets t ;;
  step <- gets step ;;
  (* scores_rep = scores.repeat(1, self.t_size) *)
  scores_rep <- (if (t_size <? 0)%Z
                 then raise (RuntimeError "Trying to create tensor with negative dimension")
                 else ret (map (fun s => repeat s (Z.to_nat t_size)) scores)) ;;
  (* hist = torch.abs(scores_rep - self.t) *)
  w <- match broadcast_width (Z.to_nat t_size) (length t) with
       | Some w => ret w
       | None => raise (RuntimeError "The size of tensor a must match the size of tensor b")
       end ;;
  let hist := map (fun row => map Rabs (zip_with Rminus (expand w row) (expand w t)))
                  scores_rep in
  (* inds = hist > self.step *)
  let inds := map (map (fun h => Rgtb h step)) hist in
  (* hist = self.step - hist *)
  let hist := map (map (fun h => step - h)) hist in
  (* hist[inds] = 0 *)
  let hist := zip_with (zip_with (fun h (b : bool) => if b then 0 else h)) hist inds in
  ret (map (fun c => c / (INR (length scores) * step)) (sum_dim0 w hist)).

(** ** [forward] *)

Definition forward (outputs : list R) (labels : list Z)
  : Py.M LabelDistributionLoss R :=
  let scores := torch.sigmoid outputs in
  (* labels.view(-1, 1) keeps the entries *)
  scores <- torch.view_as scores labels ;;
  let s_p := masked_select scores (map (fun l => (l =? 1)%Z) labels) in
  let s_u := masked_select scores (map (fun l => (l =? 0)%Z) labels) in
  l_p <- (if (0 <? numel s_p)%Z
          then dist <- gets dist ;;
               ret (dist s_p (torch.ones_like s_p))
          else ret 0) ;;
  l_u <- (if (0 <? numel s_u)%Z
          then dist <- gets dist ;;
               prior <- gets prior ;;
               ret (dist s_u (torch.mul_scalar (torch.ones_like s_u) prior))
          else ret 0) ;;
  frac_prior <- gets frac_prior ;;
  ret (l_p + frac_prior * l_u).

(* ------------------------------------------------------------------ *)
(** * Reference definitions, in the words of the specification *)

(** A one-hot vector of length [n] with mass 1 at index [k]. *)
Definition one_hot (n k : nat) : list R :=
  map (fun i => if (i =? k)%nat then 1 else 0) (seq 0 n).

(** The inputs of the examples that carry label [lbl]. *)
Definition examples_with (lbl : Z) (outputs : list R) (labels : list Z) : list R :=
  map fst (filter (fun ol => (snd ol =? lbl)%Z) (combine outputs labels)).

(** The mean of a list of numbers. *)
Definition mean (xs : list R) : R := tsum xs / INR (length xs).

(** Mean of [|sigmoid(output) - c|] over the examples with label [lbl]. *)
Definition mean_abs_dev (lbl : Z) (c : R) (outputs : list R) (labels : list Z) : R :=
  mean (map (fun o => Rabs (torch.sigmoid_scalar o - c)) (examples_with lbl outputs labels)).

(** The sub-batch of the examples whose label is 0 or 1. *)
Definition binary_label (l : Z) : bool := ((l =? 0) || (l =? 1))%Z.

Definition sub_batch (outputs : list R) (labels : list Z) : list (R * Z) :=
  filter (fun ol => binary_label (snd ol)) (combine outputs labels).

(** The module a successful construction yields, and what it logs. *)
Definition bin_centers (num_bins : Z) : list R :=
  let step64 := (1 / Binary64.of_Z num_bins)%float in
  map (fun i => 0 + INR i * (1 / IZR num_bins))
      (seq 0 (Z.to_nat (torch.arange_numel (1 + step64)%float step64))).

Definition polar_p (num_bins : Z) : list R :=
  list_set (repeat 0 (Z.to_nat (num_bins + 1))) (Z.to_nat num_bins) 1.

Definition polar_n (num_bins : Z) : list R :=
  list_set (map (fun _ => 0) (repeat 0 (Z.to_nat (num_bins + 1)))) 0 1.

Definition constructed (p : R) (dev : Device) (num_bins : Z) : LabelDistributionLoss :=
  {| prior := p; frac_prior := 1 / (2 * p); step := 1 / IZR num_bins;
     device := dev; t := bin_centers num_bins; t_size := (num_bins + 1)%Z;
     dist := F.l1_loss;
     proxy_p := polar_p num_bins;
     proxy_mix := mix_proxies p (polar_p num_bins) (polar_n num_bins) |}.

Definition arange_event (num_bins : Z) : event :=
  TorchArange (1 + 1 / IZR num_bins) (1 / IZR num_bins).

Definition construction_log (p : R) (dev : Device) (num_bins : Z) : list event :=
  [ arange_event num_bins;
    NumpyZeros (num_bins + 1); NumpyZerosLike;
    PrintStr "#### Label Distribution Loss ####";
    PrintStr "ground truth P:";
    PrintArray (polar_p num_bins);
    PrintStr "ground truth U:";
    PrintArray (mix_proxies p (polar_p num_bins) (polar_n num_bins));
    TorchFromNumpy (polar_p num_bins);
    TorchFromNumpy (mix_proxies p (polar_p num_bins) (polar_n num_bins));
    TorchTo dev; TorchTo dev; TorchTo dev ].

(** What a construction has logged when its first [.to(self.device)]
    raises: everything up to and including that call. *)
Definition placement_failure_log (p : R) (dev : Device) (num_bins : Z)
  : list event :=
  [ arange_event num_bins;
    NumpyZeros (num_bins + 1); NumpyZerosLike;
    PrintStr "#### Label Distribution Loss ####";
    PrintStr "ground truth P:";
    PrintArray (polar_p num_bins);
    PrintStr "ground truth U:";
    PrintArray (mix_proxies p (polar_p num_bins) (polar_n num_bins));
    TorchFromNumpy (polar_p num_bins);
    TorchFromNumpy (mix_proxies p (polar_p num_bins) (polar_n num_bins));
    TorchTo dev ].

(** The two terms of the loss as [forward] computes them. *)
Definition l_p_of (m : LabelDistributionLoss) (s_p : list R) : R :=
  if (0 <? numel s_p)%Z then dist m s_p (torch.ones_like s_p) else 0.

Definition l_u_of (m : LabelDistributionLoss) (s_u : list R) : R :=
  if (0 <? numel s_u)%Z
  then dist m s_u (torch.mul_scalar (torch.ones_like s_u) (prior m))
  else 0.

(** The property C5 asserts of a construction call: it raises
    [NotImplementedError] and no tensor computation has occurred by then. *)
Definition raises_before_tensor_ops (c : Py.M (list event) LabelDistributionLoss)
  : Prop :=
  exists log msg,
    c [] = (log, Raise (NotImplementedError msg))
    /\ existsb is_tensor_op log = false.

(** The property C10 asserts of a construction call with [num_bins == 0]:
    it raises [ZeroDivisionError] from the computation [1 / num_bins]. *)
Definition raises_from_step_division
    (c : Py.M (list event) LabelDistributionLoss) : Prop :=
  exists log, c [] = (log, Raise (ZeroDivisionError "1 / num_bins")).

(** The claim of C6 about one score [s]: [histogram] returns [[s, 1 - s]]. *)
Definition histogram_returns_s_then_complement (m : LabelDistributionLoss) (s : R)
  : Prop :=
  snd (histogram [s] m) = Return [s; 1 - s].

(** One cell of the soft histogram: what a score [s] adds to the bin
    centred at [c], following [histogram] entry by entry: the distance
    [|s - c|], replaced by [step - |s - c|], and set to 0 where the distance
    exceeded [step]. *)
Definition hist_cell (step c s : R) : R :=
  if Rgtb (Rabs (s - c)) step then 0 else step - Rabs (s - c).

(** The events that come after both configuration checks of the
    constructor: printed lines, conversions to tensors and transfers to the
    device. *)
Definition after_checks (e : event) : bool :=
  match e with
  | PrintStr _ | PrintArray _ | TorchFromNumpy _ | TorchTo _ => true
  | TorchArange _ _ | NumpyZeros _ | NumpyZerosLike => false
  end.

(* ------------------------------------------------------------------ *)
(** * Evaluation of the constructor *)

Ltac py_unfold :=
  unfold Py.bind, Py.ret, Py.raise, Py.gets, Py.truediv, emit,
    print_str, print_array.


Lemma IZR_pos_neq0 (n : Z) : (0 < n)%Z -> IZR n <> 0.
Proof. intros H E. apply eq_IZR_R0 in E. lia. Qed.

Lemma inv_num_bins_pos (n : Z) : (0 < n)%Z -> 0 < 1 / IZR n.
Proof.
  intros H. apply Rdiv_lt_0_compat; [lra | now apply IZR_lt].
Qed.

(** The constructor up to and including the construction of [t]. *)
Lemma arange_ok (n : Z) (log : list event) :
  (0 < n)%Z ->
  let step64 := (1 / Binary64.of_Z n)%float in
  torch.arange (1 + 1 / IZR n) (1 / IZR n)
      (torch.arange_numel (1 + step64)%float step64) log
  = (log ++ [arange_event n], Return (bin_centers n)).
Proof.
  intros H step64. pose proof (inv_num_bins_pos n H) as Hs.
  unfold torch.arange. py_unfold.
  destruct (Req_dec_T (1 / IZR n) 0) as [E | _]; [lra |].
  destruct (Rlt_dec 0 (1 / IZR n)) as [_ | N]; [| lra].
  destruct (Rle_dec 0 (1 + 1 / IZR n)) as [_ | N]; [| lra].
  reflexivity.
Qed.

Lemma polar_proxies_ok (n : Z) (log : list event) :
  (0 < n)%Z ->
  polar_proxies (n + 1) log
  = (log ++ [NumpyZeros (n + 1)] ++ [NumpyZerosLike],
     Return (polar_p n, polar_n n)).
Proof.
  intros H. unfold polar_proxies, np.zeros, np.zeros_like, np.setitem. py_unfold.
  destruct (n + 1 <? 0)%Z eqn:E; [lia |].
  unfold numel. rewrite length_map, repeat_length, Z2Nat.id by lia.
  cbn [Z.ltb Z.compare].
  replace (-1 + (n + 1))%Z with n by lia.
  destruct ((0 <=? n) && (n <? n + 1))%Z eqn:E1; [| lia].
  destruct ((0 <=? 0) && (0 <? n + 1))%Z eqn:E2; [| lia].
  rewrite <- app_assoc. reflexivity.
Qed.

Lemma init_polar_L1 (p : R) (dev : Device) (n : Z) (log : list event) :
  p <> 0 -> (0 < n)%Z -> device_error dev = None ->
  __init__ p dev n "polar" "L1" log
  = (log ++ construction_log p dev n, Return (constructed p dev n)).
Proof.
  intros Hp Hn Hdev. unfold __init__.
  unfold Py.bind at 1. unfold Py.truediv at 1.
  destruct (Req_dec_T (2 * p) 0) as [E | _]; [lra |].
  unfold Py.ret at 1.
  unfold Py.bind at 1. unfold Py.truediv at 1.
  destruct (Req_dec_T (IZR n) 0) as [E | _]; [now apply IZR_pos_neq0 in E |].
  unfold Py.ret at 1.
  unfold Py.bind at 1. rewrite arange_ok by assumption.
  cbn [String.eqb Ascii.eqb Bool.eqb].
  unfold Py.bind at 1. unfold Py.ret at 1.
  unfold Py.bind at 1. rewrite polar_proxies_ok by assumption.
  unfold torch.from_numpy, torch.to. rewrite Hdev.
  py_unfold. unfold emit. cbn [fst snd].
  unfold construction_log, constructed. repeat rewrite <- app_assoc. reflexivity.
Qed.

(** With valid arguments and a device the runtime cannot use, the first
    [.to(self.device)] raises, after the prints and the conversions. *)
Lemma init_device_error (p : R) (dev : Device) (n : Z) (log : list event)
    (e : exn) :
  p <> 0 -> (0 < n)%Z -> device_error dev = Some e ->
  __init__ p dev n "polar" "L1" log
  = (log ++ placement_failure_log p dev n, Raise e).
Proof.
  intros Hp Hn Hdev. unfold __init__.
  unfold Py.bind at 1. unfold Py.truediv at 1.
  destruct (Req_dec_T (2 * p) 0) as [E | _]; [lra |].
  unfold Py.ret at 1.
  unfold Py.bind at 1. unfold Py.truediv at 1.
  destruct (Req_dec_T (IZR n) 0) as [E | _]; [now apply IZR_pos_neq0 in E |].
  unfold Py.ret at 1.
  unfold Py.bind at 1. rewrite arange_ok by assumption.
  cbn [String.eqb Ascii.eqb Bool.eqb].
  unfold Py.bind at 1. unfold Py.ret at 1.
  unfold Py.bind at 1. rewrite polar_proxies_ok by assumption.
  unfold torch.from_numpy, torch.to. rewrite Hdev.
  py_unfold. unfold emit. cbn [fst snd].
  unfold placement_failure_log. repeat rewrite <- app_assoc. reflexivity.
Qed.

Lemma init_bad_dist (p : R) (dev : Device) (n : Z) (proxy dist : string)
    (log : list event) :
  p <> 0 -> (0 < n)%Z -> dist <> "L1"%string ->
  __init__ p dev n proxy dist log
  = (log ++ [arange_event n],
     Raise (NotImplementedError ("The distance: " ++ dist ++ " is not defined!"))).
Proof.
  intros Hp Hn Hd. unfold __init__.
  unfold Py.bind at 1. unfold Py.truediv at 1.
  destruct (Req_dec_T (2 * p) 0) as [E | _]; [lra |].
  unfold Py.ret at 1.
  unfold Py.bind at 1. unfold Py.truediv at 1.
  destruct (Req_dec_T (IZR n) 0) as [E | _]; [now apply IZR_pos_neq0 in E |].
  unfold Py.ret at 1.
  unfold Py.bind at 1. rewrite arange_ok by assumption.
  destruct (String.eqb_spec dist "L1") as [E | _]; [contradiction |].
  reflexivity.
Qed.

Lemma init_bad_proxy (p : R) (dev : Device) (n : Z) (proxy : string)
    (log : list event) :
  p <> 0 -> (0 < n)%Z -> proxy <> "polar"%string ->
  __init__ p dev n proxy "L1" log
  = (log ++ [arange_event n],
     Raise (NotImplementedError ("The proxy: " ++ proxy ++ " is not defined!"))).
Proof.
  intros Hp Hn Hd. unfold __init__.
  unfold Py.bind at 1. unfold Py.truediv at 1.
  destruct (Req_dec_T (2 * p) 0) as [E | _]; [lra |].
  unfold Py.ret at 1.
  unfold Py.bind at 1. unfold Py.truediv at 1.
  destruct (Req_dec_T (IZR n) 0) as [E | _]; [now apply IZR_pos_neq0 in E |].
  unfold Py.ret at 1.
  unfold Py.bind at 1. rewrite arange_ok by assumption.
  cbn [String.eqb Ascii.eqb Bool.eqb].
  unfold Py.bind at 1. unfold Py.ret at 1.
  unfold Py.bind at 1.
  destruct (String.eqb_spec proxy "polar") as [E | _]; [contradiction |].
  reflexivity.
Qed.

Lemma init_prior_zero (dev : Device) (n : Z) (proxy dist : string)
    (log : list event) :
  __init__ 0 dev n proxy dist log
  = (log, Raise (ZeroDivisionError "1.0 / (2 * prior)")).
Proof.
  unfold __init__. unfold Py.bind at 1. unfold Py.truediv at 1.
  destruct (Req_dec_T (2 * 0) 0) as [_ | N]; [reflexivity | lra].
Qed.

Lemma init_num_bins_zero (p : R) (dev : Device) (proxy dist : string)
    (log : list event) :
  p <> 0 ->
  __init__ p dev 0 proxy dist log
  = (log, Raise (ZeroDivisionError "1 / num_bins")).
Proof.
  intros Hp. unfold __init__. unfold Py.bind at 1. unfold Py.truediv at 1.
  destruct (Req_dec_T (2 * p) 0) as [E | _]; [lra |].
  unfold Py.ret at 1.
  unfold Py.bind at 1. unfold Py.truediv at 1.
  destruct (Req_dec_T 0 0) as [_ | N]; [reflexivity | lra].
Qed.

(** ** The polar proxies are one-hot *)

Lemma map_seq_zero (f : nat -> R) (s m : nat) :
  (forall i, (s <= i)%nat -> f i = 0) -> map f (seq s m) = repeat 0 m.
Proof.
  revert s. induction m as [| m IH]; intros s Hf; cbn [seq map repeat].
  - reflexivity.
  - rewrite Hf by lia. f_equal. apply IH. intros i Hi. apply Hf. lia.
Qed.

Lemma list_set_repeat (m k s : nat) :
  (k < m)%nat ->
  list_set (repeat 0 m) k 1
  = map (fun i => if (i =? s + k)%nat then 1 else 0) (seq s m).
Proof.
  revert k s. induction m as [| m IH]; intros k s Hk; [lia |].
  destruct k as [| k]; cbn [repeat list_set seq map].
  - replace (s + 0)%nat with s by lia. rewrite Nat.eqb_refl. f_equal.
    symmetry. apply map_seq_zero. intros i Hi.
    destruct (Nat.eqb_spec i s); [lia | reflexivity].
  - destruct (Nat.eqb_spec s (s + S k)); [lia |]. f_equal.
    rewrite (IH k (S s)) by lia.
    apply map_ext. intros i. now replace (S s + k)%nat with (s + S k)%nat by lia.
Qed.

Lemma polar_p_one_hot (n : Z) :
  (0 < n)%Z -> polar_p n = one_hot (S (Z.to_nat n)) (Z.to_nat n).
Proof.
  intros H. unfold polar_p, one_hot.
  replace (Z.to_nat (n + 1)) with (S (Z.to_nat n)) by lia.
  apply (list_set_repeat _ _ 0%nat). lia.
Qed.

Lemma polar_n_one_hot (n : Z) :
  (0 < n)%Z -> polar_n n = one_hot (S (Z.to_nat n)) 0.
Proof.
  intros H. unfold polar_n, one_hot.
  replace (Z.to_nat (n + 1)) with (S (Z.to_nat n)) by lia.
  rewrite map_repeat. apply (list_set_repeat _ _ 0%nat). lia.
Qed.

Lemma one_hot_length (n k : nat) : length (one_hot n k) = n.
Proof. unfold one_hot. now rewrite length_map, length_seq. Qed.

Lemma zip_with_length {A B C} (f : A -> B -> C) (x : list A) (y : list B) :
  length x = length y -> length (zip_with f x y) = length x.
Proof.
  revert y. induction x as [| a x IH]; intros [| b y] H; cbn in *;
    try reflexivity; try discriminate.
  f_equal. apply IH. congruence.
Qed.

Lemma mix_proxies_nth (p : R) (a b : list R) (i : nat) :
  length a = length b ->
  nth i (mix_proxies p a b) 0 = p * nth i a 0 + (1 - p) * nth i b 0.
Proof.
  unfold mix_proxies, np.add, np.scale.
  revert b i. induction a as [| x a IH]; intros [| y b] i H; cbn in *;
    try discriminate.
  - destruct i; lra.
  - destruct i as [| i]; [reflexivity |]. apply IH. congruence.
Qed.

Lemma mix_proxies_length (p : R) (a b : list R) :
  length a = length b -> length (mix_proxies p a b) = length a.
Proof.
  intros H. unfold mix_proxies, np.add, np.scale.
  rewrite zip_with_length; now rewrite !length_map.
Qed.

(* ------------------------------------------------------------------ *)
(** * Evaluation of [forward] *)

Lemma forward_run (m : LabelDistributionLoss) (outputs : list R) (labels : list Z) :
  length outputs = length labels ->
  forward outputs labels m
  = (m, Return
          (l_p_of m (masked_select (torch.sigmoid outputs)
                                   (map (fun l => (l =? 1)%Z) labels))
           + frac_prior m
             * l_u_of m (masked_select (torch.sigmoid outputs)
                                       (map (fun l => (l =? 0)%Z) labels)))).
Proof.
  intros H. unfold forward, torch.view_as, l_p_of, l_u_of.
  unfold Py.bind at 1.
  replace (numel (torch.sigmoid outputs) =? numel labels)%Z with true.
  2:{ symmetry. apply Z.eqb_eq. unfold numel, torch.sigmoid.
      now rewrite length_map, H. }
  py_unfold.
  destruct (0 <? numel (masked_select _ (map (fun l => (l =? 1)%Z) labels)))%Z;
    destruct (0 <? numel (masked_select _ (map (fun l => (l =? 0)%Z) labels)))%Z;
    reflexivity.
Qed.

Lemma forward_shape_mismatch (m : LabelDistributionLoss) (outputs : list R)
    (labels : list Z) :
  length outputs <> length labels ->
  forward outputs labels m
  = (m, Raise (RuntimeError "shape is invalid for input size")).
Proof.
  intros H. unfold forward, torch.view_as. unfold Py.bind at 1.
  replace (numel (torch.sigmoid outputs) =? numel labels)%Z with false.
  2:{ symmetry. apply Z.eqb_neq. unfold numel, torch.sigmoid.
      rewrite length_map. lia. }
  reflexivity.
Qed.

(** Boolean-mask selection of the scores is the score of the selected
    examples. *)
Lemma masked_select_examples (lbl : Z) (outputs : list R) (labels : list Z) :
  masked_select (torch.sigmoid outputs) (map (fun l => (l =? lbl)%Z) labels)
  = map torch.sigmoid_scalar (examples_with lbl outputs labels).
Proof.
  unfold torch.sigmoid, examples_with.
  revert labels. induction outputs as [| o outputs IH]; intros [| l labels];
    cbn [map masked_select combine filter]; try reflexivity.
  cbn [snd]. destruct (l =? lbl)%Z; cbn [map fst]; now rewrite IH.
Qed.

Lemma zip_with_map_const {A} (g : R -> R -> R) (f : A -> R) (c : R) (xs : list A) :
  zip_with g (map f xs) (map (fun _ => c) (map f xs))
  = map (fun o => g (f o) c) xs.
Proof.
  induction xs as [| x xs IH]; cbn [map zip_with]; [reflexivity |].
  now rewrite IH.
Qed.

Lemma l1_loss_ones (xs : list R) :
  F.l1_loss (map torch.sigmoid_scalar xs)
            (torch.ones_like (map torch.sigmoid_scalar xs))
  = mean (map (fun o => Rabs (torch.sigmoid_scalar o - 1)) xs).
Proof.
  unfold F.l1_loss, torch.ones_like, mean.
  now rewrite zip_with_map_const, !length_map.
Qed.

Lemma l1_loss_prior (p : R) (xs : list R) :
  F.l1_loss (map torch.sigmoid_scalar xs)
            (torch.mul_scalar (torch.ones_like (map torch.sigmoid_scalar xs)) p)
  = mean (map (fun o => Rabs (torch.sigmoid_scalar o - p)) xs).
Proof.
  unfold F.l1_loss, torch.ones_like, torch.mul_scalar, mean.
  rewrite (map_map (fun _ => 1) (fun a => a * p)).
  rewrite zip_with_map_const, !length_map.
  do 2 f_equal. apply map_ext. intros o. now rewrite Rmult_1_l.
Qed.

Lemma examples_with_nil (lbl : Z) (outputs : list R) (labels : list Z) :
  ~ In lbl labels -> examples_with lbl outputs labels = [].
Proof.
  unfold examples_with.
  revert labels. induction outputs as [| o outputs IH]; intros [| l labels] H;
    cbn [combine filter map]; try reflexivity.
  cbn [snd]. destruct (Z.eqb_spec l lbl) as [E | _].
  - exfalso. apply H. now left.
  - apply IH. intros H'. apply H. now right.
Qed.

Lemma examples_with_cons (lbl : Z) (outputs : list R) (labels : list Z) :
  length outputs = length labels -> In lbl labels ->
  (0 < length (examples_with lbl outputs labels))%nat.
Proof.
  unfold examples_with.
  revert labels. induction outputs as [| o outputs IH]; intros [| l labels] H Hin;
    cbn in H; try discriminate; try (now destruct Hin).
  cbn [combine filter snd]. destruct (Z.eqb_spec l lbl) as [E | N].
  - cbn. lia.
  - destruct Hin as [E | Hin]; [contradiction |]. apply IH; [congruence | assumption].
Qed.

(** The two terms, for a module that uses the L1 distance. *)
Lemma l_p_of_examples (m : LabelDistributionLoss) (outputs : list R) (labels : list Z) :
  dist m = F.l1_loss ->
  l_p_of m (masked_select (torch.sigmoid outputs) (map (fun l => (l =? 1)%Z) labels))
  = if (0 <? numel (examples_with 1 outputs labels))%Z
    then mean_abs_dev 1 1 outputs labels else 0.
Proof.
  intros Hd. unfold l_p_of, mean_abs_dev. rewrite masked_select_examples, Hd.
  unfold numel. rewrite length_map, l1_loss_ones. reflexivity.
Qed.

Lemma l_u_of_examples (m : LabelDistributionLoss) (outputs : list R) (labels : list Z) :
  dist m = F.l1_loss ->
  l_u_of m (masked_select (torch.sigmoid outputs) (map (fun l => (l =? 0)%Z) labels))
  = if (0 <? numel (examples_with 0 outputs labels))%Z
    then mean_abs_dev 0 (prior m) outputs labels else 0.
Proof.
  intros Hd. unfold l_u_of, mean_abs_dev. rewrite masked_select_examples, Hd.
  unfold numel. rewrite length_map, l1_loss_prior. reflexivity.
Qed.

(** ** When construction succeeds *)

Lemma arange_negative (n : Z) (log : list event) :
  (n < -1)%Z ->
  let step64 := (1 / Binary64.of_Z n)%float in
  torch.arange (1 + 1 / IZR n) (1 / IZR n)
      (torch.arange_numel (1 + step64)%float step64) log
  = (log ++ [arange_event n],
     Raise (RuntimeError "upper bound and larger bound inconsistent with step sign")).
Proof.
  intros H step64.
  assert (Hn : IZR n <= -2) by (apply IZR_le; lia).
  assert (Hi : -1 < 1 / IZR n < 0).
  { unfold Rdiv. rewrite Rmult_1_l.
    assert (Hneg : / IZR n < 0) by (apply Rinv_lt_0_compat; lra).
    split; [| assumption].
    assert (Hm : IZR n * / IZR n = 1) by (apply Rinv_r; lra).
    nra. }
  unfold torch.arange. py_unfold.
  destruct (Req_dec_T (1 / IZR n) 0) as [E | _]; [lra |].
  destruct (Rlt_dec 0 (1 / IZR n)) as [N | _]; [lra |].
  destruct (Rle_dec (1 + 1 / IZR n) 0) as [N | _]; [lra |].
  reflexivity.
Qed.

Lemma polar_proxies_empty (log : list event) :
  exists log', polar_proxies 0 log
               = (log', Raise (IndexError "index is out of bounds for axis 0")).
Proof.
  eexists. unfold polar_proxies, np.zeros, np.zeros_like, np.setitem.
  py_unfold. cbn. reflexivity.
Qed.

(** Construction returns a module only for a nonzero prior, a positive
    number of bins, the L1 distance and the polar proxy. *)
Lemma init_success (p : R) (dev : Device) (n : Z) (proxy dist_name : string)
    (log log' : list event) (m : LabelDistributionLoss) :
  __init__ p dev n proxy dist_name log = (log', Return m) ->
  p <> 0 /\ (0 < n)%Z /\ dist_name = "L1"%string /\ proxy = "polar"%string /\
  log' = log ++ construction_log p dev n /\ m = constructed p dev n.
Proof.
  intros H.
  assert (Hp : p <> 0).
  { intros ->. rewrite init_prior_zero in H. discriminate H. }
  assert (Hn : (0 < n)%Z).
  { destruct (Z.lt_trichotomy 0 n) as [L | [E | G]]; [assumption | |].
    - subst n. rewrite init_num_bins_zero in H by assumption. discriminate H.
    - exfalso. revert H. unfold __init__.
      unfold Py.bind at 1. unfold Py.truediv at 1.
      destruct (Req_dec_T (2 * p) 0) as [E | _]; [lra |].
      unfold Py.ret at 1.
      unfold Py.bind at 1. unfold Py.truediv at 1.
      destruct (Req_dec_T (IZR n) 0) as [E | _];
        [intros H; discriminate H |].
      unfold Py.ret at 1. unfold Py.bind at 1.
      destruct (Z.eq_dec n (-1)) as [-> | Hn1].
      + destruct (torch.arange _ _ _ log) as [log1 [t1 | e]];
          [| intros H; discriminate H].
        unfold Py.bind at 1.
        destruct (dist_name =? "L1")%string; [| intros H; discriminate H].
        unfold Py.ret at 1. unfold Py.bind at 1.
        destruct (proxy =? "polar")%string; [| intros H; discriminate H].
        change (-1 + 1)%Z with 0%Z.
        destruct (polar_proxies_empty log1) as [log2 ->].
        intros H; discriminate H.
      + rewrite arange_negative by lia. intros H; discriminate H. }
  destruct (String.eqb_spec dist_name "L1") as [Ed | Nd].
  2:{ rewrite init_bad_dist in H by assumption. discriminate H. }
  subst dist_name.
  destruct (String.eqb_spec proxy "polar") as [Ep | Np].
  2:{ rewrite init_bad_proxy in H by assumption. discriminate H. }
  subst proxy.
  destruct (device_error dev) as [e |] eqn:Hdev.
  { rewrite (init_device_error p dev n log e) in H by assumption.
    discriminate H. }
  rewrite init_polar_L1 in H by assumption.
  injection H as <- <-. repeat split; assumption.
Qed.

(** ... and only for a device the runtime can place tensors on. *)
Lemma init_success_device (p : R) (dev : Device) (n : Z)
    (proxy dist_name : string) (log log' : list event)
    (m : LabelDistributionLoss) :
  __init__ p dev n proxy dist_name log = (log', Return m) ->
  device_error dev = None.
Proof.
  intros H.
  destruct (init_success _ _ _ _ _ _ _ _ H) as (Hp & Hn & -> & -> & _ & _).
  destruct (device_error dev) as [e |] eqn:Hdev; [| reflexivity].
  rewrite (init_device_error p dev n log e) in H by assumption.
  discriminate H.
Qed.

(** ** Sums and means of absolute differences *)

Lemma tsum_abs_nonneg {A} (g : A -> R) (xs : list A) :
  0 <= tsum (map (fun x => Rabs (g x)) xs).
Proof.
  unfold tsum. induction xs as [| x xs IH]; cbn [map fold_right]; [lra |].
  pose proof (Rabs_pos (g x)). lra.
Qed.

Lemma tsum_abs_zero {A} (g : A -> R) (xs : list A) :
  tsum (map (fun x => Rabs (g x)) xs) = 0 -> Forall (fun x => g x = 0) xs.
Proof.
  induction xs as [| x xs IH]; intros H; constructor;
    pose proof (Rabs_pos (g x)) as Hx; pose proof (tsum_abs_nonneg g xs) as Hxs;
    unfold tsum in *; cbn [map fold_right] in H.
  - destruct (Req_dec (g x) 0) as [E | N]; [assumption |].
    apply Rabs_pos_lt in N. lra.
  - apply IH. lra.
Qed.

Lemma mean_abs_nonneg {A} (g : A -> R) (xs : list A) :
  (0 < length xs)%nat -> 0 <= mean (map (fun x => Rabs (g x)) xs).
Proof.
  intros H. unfold mean. rewrite length_map.
  apply Rmult_le_pos; [apply tsum_abs_nonneg |].
  apply Rlt_le, Rinv_0_lt_compat. now apply (lt_INR 0).
Qed.

Lemma mean_abs_zero {A} (g : A -> R) (xs : list A) :
  (0 < length xs)%nat -> mean (map (fun x => Rabs (g x)) xs) = 0 ->
  Forall (fun x => g x = 0) xs.
Proof.
  intros H E. apply tsum_abs_zero. unfold mean in E. rewrite length_map in E.
  assert (Hl : 0 < INR (length xs)) by now apply (lt_INR 0).
  apply Rmult_integral in E. destruct E as [E | E]; [assumption |].
  exfalso. apply Rinv_0_lt_compat in Hl. lra.
Qed.

Lemma numel_pos_length {A} (x : list A) :
  (0 <? numel x)%Z = true <-> (0 < length x)%nat.
Proof. unfold numel. rewrite Z.ltb_lt. lia. Qed.

Lemma examples_with_all (lbl : Z) (outputs : list R) (labels : list Z) :
  length outputs = length labels -> Forall (fun l => l = lbl) labels ->
  examples_with lbl outputs labels = outputs.
Proof.
  unfold examples_with.
  revert labels. induction outputs as [| o outputs IH]; intros [| l labels] H Hall;
    cbn in H; try discriminate; [reflexivity |].
  inversion Hall as [| ? ? Hl Hall']; subst.
  cbn [combine filter snd]. rewrite Z.eqb_refl. cbn [map fst].
  f_equal. apply IH; [congruence | assumption].
Qed.

(** The value [forward] returns on a well-shaped batch, for a module the
    constructor returned with prior [p]. *)
Lemma forward_constructed (p : R) (dev : Device) (n : Z) (proxy dist_name : string)
    (log log' : list event) (m : LabelDistributionLoss)
    (outputs : list R) (labels : list Z) :
  __init__ p dev n proxy dist_name log = (log', Return m) ->
  length outputs = length labels ->
  forward outputs labels m
  = (m, Return
          ((if (0 <? numel (examples_with 1 outputs labels))%Z
            then mean_abs_dev 1 1 outputs labels else 0)
           + 1 / (2 * p)
             * (if (0 <? numel (examples_with 0 outputs labels))%Z
                then mean_abs_dev 0 p outputs labels else 0))).
Proof.
  intros Hm Hlen.
  destruct (init_success _ _ _ _ _ _ _ _ Hm) as (_ & _ & _ & _ & _ & ->).
  rewrite forward_run by assumption.
  rewrite l_p_of_examples, l_u_of_examples by reflexivity.
  reflexivity.
Qed.

(* ------------------------------------------------------------------ *)
(** * The forward pass *)

(** C1: for a module constructed with a prior [p] in (0,1) and a batch that
    has at least one label 1 and at least one label 0, [forward] returns
    exactly [l_p + (1/(2p)) * l_u], with [l_p] the mean of
    [|sigmoid(output) - 1|] over the examples labelled 1 and [l_u] the mean
    of [|sigmoid(output) - p|] over the examples labelled 0. *)
Theorem forward_mixed_batch (p : R) (dev : Device) (n : Z) (proxy dist_name : string)
    (log log' : list event) (m : LabelDistributionLoss)
    (outputs : list R) (labels : list Z) :
  0 < p < 1 ->
  __init__ p dev n proxy dist_name log = (log', Return m) ->
  length outputs = length labels ->
  Forall (fun l => l = 0%Z \/ l = 1%Z) labels ->
  In 1%Z labels -> In 0%Z labels ->
  forward outputs labels m
  = (m, Return (mean_abs_dev 1 1 outputs labels
                + 1 / (2 * p) * mean_abs_dev 0 p outputs labels)).
Proof.
  intros _ Hm Hlen _ H1 H0.
  rewrite (forward_constructed _ _ _ _ _ _ _ _ _ _ Hm Hlen).
  pose proof (examples_with_cons 1 _ _ Hlen H1) as P1.
  pose proof (examples_with_cons 0 _ _ Hlen H0) as P0.
  apply numel_pos_length in P1, P0. now rewrite P1, P0.
Qed.

Lemma forward_mixed_batch_witness :
  forward [0; 0] [1%Z; 0%Z] (constructed (1 / 2) cpu 1)
  = (constructed (1 / 2) cpu 1,
     Return (mean_abs_dev 1 1 [0; 0] [1%Z; 0%Z]
             + 1 / (2 * (1 / 2)) * mean_abs_dev 0 (1 / 2) [0; 0] [1%Z; 0%Z])).
Proof.
  apply (forward_mixed_batch (1 / 2) cpu 1 "polar" "L1" []
           ([] ++ construction_log (1 / 2) cpu 1)).
  - lra.
  - apply init_polar_L1; [lra | lia | reflexivity].
  - reflexivity.
  - constructor; [right; reflexivity | constructor; [left; reflexivity | constructor]].
  - simpl; auto.
  - simpl; auto.
Defined.

(** C3: when one of the two label subsets is empty, [forward] raises no
    error and the empty subset contributes exactly 0: the result is the
    remaining term alone.  With no label 1 it is [(1/(2p)) * l_u]; with no
    label 0 it is [l_p]; with neither it is 0; and for a non-empty batch
    whose labels are all 0 it is [(1/(2p))] times the mean of
    [|sigmoid(output) - p|] over the whole batch. *)
Theorem forward_empty_subset (p : R) (dev : Device) (n : Z) (proxy dist_name : string)
    (log log' : list event) (m : LabelDistributionLoss)
    (outputs : list R) (labels : list Z) :
  0 < p < 1 ->
  __init__ p dev n proxy dist_name log = (log', Return m) ->
  length outputs = length labels ->
  (~ In 1%Z labels -> In 0%Z labels ->
   forward outputs labels m
   = (m, Return (1 / (2 * p) * mean_abs_dev 0 p outputs labels)))
  /\ (~ In 0%Z labels -> In 1%Z labels ->
      forward outputs labels m = (m, Return (mean_abs_dev 1 1 outputs labels)))
  /\ (~ In 1%Z labels -> ~ In 0%Z labels ->
      forward outputs labels m = (m, Return 0))
  /\ (Forall (fun l => l = 0%Z) labels -> labels <> [] ->
      forward outputs labels m
      = (m, Return (1 / (2 * p)
                    * mean (map (fun o => Rabs (torch.sigmoid_scalar o - p))
                                outputs)))).
Proof.
  intros _ Hm Hlen.
  rewrite (forward_constructed _ _ _ _ _ _ _ _ _ _ Hm Hlen).
  assert (Hempty : forall lbl, ~ In lbl labels ->
            (0 <? numel (examples_with lbl outputs labels))%Z = false).
  { intros lbl H. now rewrite examples_with_nil. }
  assert (Hsome : forall lbl, In lbl labels ->
            (0 <? numel (examples_with lbl outputs labels))%Z = true).
  { intros lbl H. apply numel_pos_length. now apply examples_with_cons. }
  repeat split.
  - intros N1 I0. rewrite (Hempty _ N1), (Hsome _ I0). do 2 f_equal. ring.
  - intros N0 I1. rewrite (Hempty _ N0), (Hsome _ I1). do 2 f_equal. ring.
  - intros N1 N0. rewrite (Hempty _ N1), (Hempty _ N0). do 2 f_equal. ring.
  - intros Hall Hne.
    assert (N1 : ~ In 1%Z labels).
    { intros I1. rewrite Forall_forall in Hall. now apply Hall in I1. }
    assert (I0 : In 0%Z labels).
    { destruct labels as [| l labels]; [contradiction |].
      inversion Hall; subst. now left. }
    rewrite (Hempty _ N1), (Hsome _ I0). unfold mean_abs_dev.
    rewrite (examples_with_all 0 outputs labels Hlen Hall).
    do 2 f_equal. ring.
Qed.

Lemma forward_empty_subset_witness :
  forward [0; 1] [0%Z; 0%Z] (constructed (1 / 2) cpu 1)
  = (constructed (1 / 2) cpu 1,
     Return (1 / (2 * (1 / 2))
             * mean (map (fun o => Rabs (torch.sigmoid_scalar o - 1 / 2)) [0; 1]))).
Proof.
  assert (Hp : 0 < 1 / 2 < 1) by lra.
  assert (Hi : __init__ (1 / 2) cpu 1 "polar" "L1" []
               = ([] ++ construction_log (1 / 2) cpu 1,
                  Return (constructed (1 / 2) cpu 1)))
    by (apply init_polar_L1; [lra | lia | reflexivity]).
  apply (forward_empty_subset (1 / 2) cpu 1 "polar" "L1" [] _ _
           [0; 1] [0%Z; 0%Z] Hp Hi eq_refl).
  - repeat constructor.
  - discriminate.
Defined.

(** C4: for a prior [p] in (0,1) and a batch with labels in {0,1}, the
    value [forward] returns is non-negative, and it is 0 only if every
    score of the positive subset equals 1 and every score of the unlabeled
    subset equals [p]. *)
Theorem forward_nonneg (p : R) (dev : Device) (n : Z) (proxy dist_name : string)
    (log log' : list event) (m : LabelDistributionLoss)
    (outputs : list R) (labels : list Z) :
  0 < p < 1 ->
  __init__ p dev n proxy dist_name log = (log', Return m) ->
  length outputs = length labels ->
  Forall (fun l => l = 0%Z \/ l = 1%Z) labels ->
  exists v,
    forward outputs labels m = (m, Return v)
    /\ 0 <= v
    /\ (v = 0 ->
        Forall (fun o => torch.sigmoid_scalar o = 1) (examples_with 1 outputs labels)
        /\ Forall (fun o => torch.sigmoid_scalar o = p) (examples_with 0 outputs labels)).
Proof.
  intros Hp Hm Hlen _.
  rewrite (forward_constructed _ _ _ _ _ _ _ _ _ _ Hm Hlen).
  eexists. split; [reflexivity |].
  assert (Hf : 0 < 1 / (2 * p)) by (apply Rdiv_lt_0_compat; lra).
  set (xs1 := examples_with 1 outputs labels).
  set (xs0 := examples_with 0 outputs labels).
  assert (H1 : 0 <= (if (0 <? numel xs1)%Z then mean_abs_dev 1 1 outputs labels else 0)
               /\ ((if (0 <? numel xs1)%Z then mean_abs_dev 1 1 outputs labels else 0) = 0
                   -> Forall (fun o => torch.sigmoid_scalar o = 1) xs1)).
  { destruct (0 <? numel xs1)%Z eqn:E.
    - apply numel_pos_length in E. unfold mean_abs_dev. fold xs1. split.
      + now apply mean_abs_nonneg.
      + intros Z0. apply mean_abs_zero in Z0; [| assumption].
        eapply Forall_impl; [| exact Z0]. cbn. intros; lra.
    - split; [lra |]. intros _.
      assert (L : length xs1 = 0%nat).
      { unfold numel in E. apply Z.ltb_ge in E. lia. }
      destruct xs1; [constructor | discriminate L]. }
  assert (H0 : 0 <= (if (0 <? numel xs0)%Z then mean_abs_dev 0 p outputs labels else 0)
               /\ ((if (0 <? numel xs0)%Z then mean_abs_dev 0 p outputs labels else 0) = 0
                   -> Forall (fun o => torch.sigmoid_scalar o = p) xs0)).
  { destruct (0 <? numel xs0)%Z eqn:E.
    - apply numel_pos_length in E. unfold mean_abs_dev. fold xs0. split.
      + now apply mean_abs_nonneg.
      + intros Z0. apply mean_abs_zero in Z0; [| assumption].
        eapply Forall_impl; [| exact Z0]. cbn. intros; lra.
    - split; [lra |]. intros _.
      assert (L : length xs0 = 0%nat).
      { unfold numel in E. apply Z.ltb_ge in E. lia. }
      destruct xs0; [constructor | discriminate L]. }
  destruct H1 as [N1 Z1], H0 as [N0 Z0].
  set (a := if (0 <? numel xs1)%Z then _ else 0) in *.
  set (b := if (0 <? numel xs0)%Z then _ else 0) in *.
  split.
  - assert (0 <= 1 / (2 * p) * b) by (apply Rmult_le_pos; lra). lra.
  - intros E.
    assert (Hb : 0 <= 1 / (2 * p) * b) by (apply Rmult_le_pos; lra).
    assert (Ea : a = 0) by lra.
    assert (Eb : b = 0).
    { assert (Eb' : 1 / (2 * p) * b = 0) by lra.
      apply Rmult_integral in Eb'. destruct Eb'; [lra | assumption]. }
    split; [now apply Z1 | now apply Z0].
Qed.

Lemma forward_nonneg_witness :
  exists v,
    forward [0] [0%Z] (constructed (1 / 2) cpu 1)
    = (constructed (1 / 2) cpu 1, Return v)
    /\ 0 <= v
    /\ (v = 0 ->
        Forall (fun o => torch.sigmoid_scalar o = 1) (examples_with 1 [0] [0%Z])
        /\ Forall (fun o => torch.sigmoid_scalar o = 1 / 2)
                  (examples_with 0 [0] [0%Z])).
Proof.
  assert (Hp : 0 < 1 / 2 < 1) by lra.
  assert (Hi : __init__ (1 / 2) cpu 1 "polar" "L1" []
               = ([] ++ construction_log (1 / 2) cpu 1,
                  Return (constructed (1 / 2) cpu 1)))
    by (apply init_polar_L1; [lra | lia | reflexivity]).
  apply (forward_nonneg (1 / 2) cpu 1 "polar" "L1" [] _ _ [0] [0%Z] Hp Hi eq_refl).
  constructor; [left; reflexivity | constructor].
Defined.

(** C8: a call of [forward] leaves the state set at construction
    unchanged, whatever the inputs: [prior], [frac_prior], [step], [t],
    [proxy_p] and [proxy_mix] (indeed the whole object) are the same after
    the call as before it, and a second call with the same inputs gives
    the same result. *)
Theorem forward_preserves_state (m : LabelDistributionLoss)
    (outputs : list R) (labels : list Z) :
  let m' := fst (forward outputs labels m) in
  let r := snd (forward outputs labels m) in
  prior m' = prior m /\ frac_prior m' = frac_prior m /\ step m' = step m
  /\ t m' = t m /\ proxy_p m' = proxy_p m /\ proxy_mix m' = proxy_mix m
  /\ m' = m
  /\ forward outputs labels m' = (m', r).
Proof.
  destruct (Nat.eq_dec (length outputs) (length labels)) as [E | N].
  - rewrite (forward_run m outputs labels E). cbn [fst snd].
    rewrite (forward_run m outputs labels E). repeat split; reflexivity.
  - rewrite (forward_shape_mismatch m outputs labels N). cbn [fst snd].
    rewrite (forward_shape_mismatch m outputs labels N). repeat split; reflexivity.
Qed.

(** ** Labels outside {0,1} *)

Lemma combine_fst_snd {A B} (l : list (A * B)) :
  combine (map fst l) (map snd l) = l.
Proof.
  induction l as [| [a b] l IH]; cbn; [reflexivity | now rewrite IH].
Qed.

Lemma filter_label_sub_batch (lbl : Z) (l : list (R * Z)) :
  binary_label lbl = true ->
  filter (fun ol => (snd ol =? lbl)%Z) (filter (fun ol => binary_label (snd ol)) l)
  = filter (fun ol => (snd ol =? lbl)%Z) l.
Proof.
  intros Hb. induction l as [| [o k] l IH]; cbn [filter snd]; [reflexivity |].
  destruct (binary_label k) eqn:Ek; cbn [filter snd].
  - now rewrite IH.
  - destruct (Z.eqb_spec k lbl) as [-> | _]; [congruence | assumption].
Qed.

Lemma examples_with_sub_batch (lbl : Z) (outputs : list R) (labels : list Z) :
  binary_label lbl = true ->
  examples_with lbl (map fst (sub_batch outputs labels))
                    (map snd (sub_batch outputs labels))
  = examples_with lbl outputs labels.
Proof.
  intros Hb. unfold examples_with, sub_batch.
  now rewrite combine_fst_snd, filter_label_sub_batch.
Qed.

(** C9: examples whose label is neither 0 nor 1 are left out of both
    subsets without any error: on every batch [forward] returns a value,
    and it is the value it returns on the sub-batch of the examples whose
    labels are 0 or 1. *)
Theorem forward_ignores_other_labels (m : LabelDistributionLoss)
    (outputs : list R) (labels : list Z) :
  length outputs = length labels ->
  exists v,
    forward outputs labels m = (m, Return v)
    /\ forward (map fst (sub_batch outputs labels))
               (map snd (sub_batch outputs labels)) m
       = (m, Return v).
Proof.
  intros Hlen. eexists. split.
  - apply forward_run. assumption.
  - rewrite forward_run by now rewrite !length_map.
    rewrite !masked_select_examples.
    now rewrite !examples_with_sub_batch by reflexivity.
Qed.

Lemma forward_ignores_other_labels_witness :
  exists v,
    forward [0; 1; 2] [1%Z; 2%Z; (-1)%Z] (constructed (1 / 2) cpu 1)
    = (constructed (1 / 2) cpu 1, Return v)
    /\ forward (map fst (sub_batch [0; 1; 2] [1%Z; 2%Z; (-1)%Z]))
               (map snd (sub_batch [0; 1; 2] [1%Z; 2%Z; (-1)%Z]))
               (constructed (1 / 2) cpu 1)
       = (constructed (1 / 2) cpu 1, Return v).
Proof.
  apply (forward_ignores_other_labels (constructed (1 / 2) cpu 1)
           [0; 1; 2] [1%Z; 2%Z; (-1)%Z]).
  reflexivity.
Defined.

(* ------------------------------------------------------------------ *)
(** * Construction *)

(** C2: for a prior [p] in (0,1) and a positive number of bins (and a
    device the runtime can use, so that construction completes),
    construction builds [proxy_p] and [proxy_n] as one-hot vectors of
    length [num_bins + 1], with mass 1 at the last and at the first index,
    stores [proxy_p], and sets [proxy_mix] entry by entry to
    [p * proxy_p + (1 - p) * proxy_n]. *)
Theorem polar_proxies_one_hot (p : R) (dev : Device) (n : Z) (log : list event) :
  0 < p < 1 -> (0 < n)%Z -> device_error dev = None ->
  let k := Z.to_nat n in
  exists log1 log' m,
    polar_proxies (n + 1) (log ++ [arange_event n])
    = (log1, Return (one_hot (S k) k, one_hot (S k) 0))
    /\ __init__ p dev n "polar" "L1" log = (log', Return m)
    /\ proxy_p m = one_hot (S k) k
    /\ numel (proxy_p m) = (n + 1)%Z
    /\ numel (proxy_mix m) = (n + 1)%Z
    /\ forall i : nat,
         nth i (proxy_mix m) 0
         = p * nth i (one_hot (S k) k) 0 + (1 - p) * nth i (one_hot (S k) 0) 0.
Proof.
  intros Hp Hn Hdev k.
  exists ((log ++ [arange_event n]) ++ [NumpyZeros (n + 1)] ++ [NumpyZerosLike]),
         (log ++ construction_log p dev n), (constructed p dev n).
  assert (Ep : polar_p n = one_hot (S k) k) by now apply polar_p_one_hot.
  assert (En : polar_n n = one_hot (S k) 0) by now apply polar_n_one_hot.
  split; [| split; [| split; [| split; [| split]]]].
  - rewrite polar_proxies_ok by assumption. now rewrite Ep, En.
  - apply init_polar_L1; [lra | assumption | assumption].
  - exact Ep.
  - cbn [proxy_p constructed]. rewrite Ep. unfold numel.
    rewrite one_hot_length. subst k. lia.
  - cbn [proxy_mix constructed]. rewrite Ep, En. unfold numel.
    rewrite mix_proxies_length, one_hot_length by now rewrite !one_hot_length.
    subst k. lia.
  - intros i. cbn [proxy_mix constructed]. rewrite Ep, En.
    apply mix_proxies_nth. now rewrite !one_hot_length.
Qed.

Lemma polar_proxies_one_hot_witness :
  exists log1 log' m,
    polar_proxies (1 + 1) ([] ++ [arange_event 1])
    = (log1, Return (one_hot 2 1, one_hot 2 0))
    /\ __init__ (1 / 4) cpu 1 "polar" "L1" [] = (log', Return m)
    /\ proxy_p m = one_hot 2 1
    /\ numel (proxy_p m) = (1 + 1)%Z
    /\ numel (proxy_mix m) = (1 + 1)%Z
    /\ forall i : nat,
         nth i (proxy_mix m) 0
         = 1 / 4 * nth i (one_hot 2 1) 0 + (1 - 1 / 4) * nth i (one_hot 2 0) 0.
Proof.
  apply (polar_proxies_one_hot (1 / 4) cpu 1 []); [lra | lia | reflexivity].
Defined.

(** C5, as stated, fails: with [dist="L2"] the constructor raises only
    after [torch.arange] has built the bin centers. *)
Lemma init_L2_raises_after_arange :
  ~ raises_before_tensor_ops (__init__ (1 / 2) cpu 1 "polar" "L2").
Proof.
  intros (log & msg & H & Hn).
  rewrite init_bad_dist in H by (try lra; try lia; discriminate).
  injection H as <- _. cbn in Hn. discriminate Hn.
Qed.

(** C5, amended: for valid numeric arguments (a nonzero prior and a
    positive number of bins) the constructor raises [NotImplementedError]
    when [dist] is not "L1" (checked first) or [proxy] is not "polar".
    When it does, the bin centers have been computed by [torch.arange], a
    tensor computation, and nothing else has happened: no proxy array, no
    printed line, no conversion and no transfer to the device.  With both
    strings valid, construction returns a module when the runtime can place
    tensors on the device, and otherwise the first [.to(self.device)]
    raises the runtime's exception, after the prints and the conversions:
    that is the only other error condition. *)
Theorem init_configuration_errors (p : R) (dev : Device) (n : Z)
    (proxy dist_name : string) (log : list event) :
  p <> 0 -> (0 < n)%Z ->
  (dist_name <> "L1"%string ->
   __init__ p dev n proxy dist_name log
   = (log ++ [arange_event n],
      Raise (NotImplementedError
               ("The distance: " ++ dist_name ++ " is not defined!"))))
  /\ (dist_name = "L1"%string -> proxy <> "polar"%string ->
      __init__ p dev n proxy dist_name log
      = (log ++ [arange_event n],
         Raise (NotImplementedError
                  ("The proxy: " ++ proxy ++ " is not defined!"))))
  /\ (dist_name = "L1"%string -> proxy = "polar"%string ->
      device_error dev = None ->
      __init__ p dev n proxy dist_name log
      = (log ++ construction_log p dev n, Return (constructed p dev n)))
  /\ (dist_name = "L1"%string -> proxy = "polar"%string ->
      forall e, device_error dev = Some e ->
      __init__ p dev n proxy dist_name log
      = (log ++ placement_failure_log p dev n, Raise e))
  /\ is_tensor_op (arange_event n) = true.
Proof.
  intros Hp Hn. repeat split.
  - intros Hd. now apply init_bad_dist.
  - intros -> Hx. now apply init_bad_proxy.
  - intros -> -> Hdev. now apply init_polar_L1.
  - intros -> -> e Hdev. now apply init_device_error.
Qed.

Lemma init_configuration_errors_witness :
  __init__ (1 / 2) cpu 1 "uniform" "L1" []
  = ([] ++ [arange_event 1],
     Raise (NotImplementedError ("The proxy: " ++ "uniform" ++ " is not defined!")))
  /\ __init__ (1 / 2) cuda_missing 1 "polar" "L1" []
     = ([] ++ placement_failure_log (1 / 2) cuda_missing 1,
        Raise (AssertionError "Torch not compiled with CUDA enabled")).
Proof.
  assert (Hp : 1 / 2 <> 0) by lra.
  assert (Hn : (0 < 1)%Z) by lia.
  split.
  - destruct (init_configuration_errors (1 / 2) cpu 1 "uniform" "L1" [] Hp Hn)
      as (_ & H & _).
    apply H; [reflexivity | discriminate].
  - destruct (init_configuration_errors (1 / 2) cuda_missing 1 "polar" "L1" []
                Hp Hn) as (_ & _ & _ & H & _).
    apply H; reflexivity.
Defined.

(** C10, as stated, fails: with [prior == 0] and [num_bins == 0] the
    [ZeroDivisionError] does not come from [1 / num_bins]; the division
    [1.0 / (2 * prior)] on the line before raises first. *)
Lemma init_zero_prior_and_bins :
  ~ raises_from_step_division (__init__ 0 cpu 0 "polar" "L1").
Proof.
  intros (log & H). rewrite init_prior_zero in H.
  injection H as _ H. discriminate H.
Qed.

(** C10, amended: construction with [prior == 0] raises
    [ZeroDivisionError] from [1.0 / (2 * prior)], whatever the other
    arguments are; construction with [num_bins == 0] raises
    [ZeroDivisionError] whatever the other arguments are, from
    [1 / num_bins] when the prior is not 0 and from [1.0 / (2 * prior)]
    when it is 0 as well; nothing has been logged by then. *)
Theorem init_zero_division :
  (forall dev n proxy dist_name log,
      __init__ 0 dev n proxy dist_name log
      = (log, Raise (ZeroDivisionError "1.0 / (2 * prior)")))
  /\ (forall p dev proxy dist_name log,
         __init__ p dev 0 proxy dist_name log
         = (log, Raise (ZeroDivisionError
                          (if Req_dec_T p 0 then "1.0 / (2 * prior)"
                           else "1 / num_bins")%string))).
Proof.
  split.
  - intros. apply init_prior_zero.
  - intros p dev proxy dist_name log.
    destruct (Req_dec_T p 0) as [-> | Hp].
    + apply init_prior_zero.
    + now apply init_num_bins_zero.
Qed.

(* ------------------------------------------------------------------ *)
(** * Bin centers and the soft histogram *)

Lemma arange_numel_1 :
  let step64 := (1 / Binary64.of_Z 1)%float in
  torch.arange_numel (1 + step64)%float step64 = 2%Z.
Proof. vm_compute. reflexivity. Qed.

Lemma arange_numel_6 :
  let step64 := (1 / Binary64.of_Z 6)%float in
  torch.arange_numel (1 + step64)%float step64 = 8%Z.
Proof. vm_compute. reflexivity. Qed.

Lemma bin_centers_1 : bin_centers 1 = [0 + 0 * (1 / 1); 0 + 1 * (1 / 1)].
Proof. unfold bin_centers. rewrite arange_numel_1. reflexivity. Qed.

Lemma bin_centers_6_length : length (bin_centers 6) = 8%nat.
Proof.
  unfold bin_centers. rewrite arange_numel_6.
  now rewrite length_map, length_seq.
Qed.

Lemma bin_centers_6_last : nth 7 (bin_centers 6) 0 = 7 / 6.
Proof.
  unfold bin_centers. rewrite arange_numel_6.
  change (Z.to_nat 8) with 8%nat. cbn [seq map nth INR]. lra.
Qed.

Lemma histogram_num_bins_1 (p : R) (dev : Device) (s : R) :
  0 <= s <= 1 ->
  histogram [s] (constructed p dev 1)
  = (constructed p dev 1, Return [1 - s; s]).
Proof.
  intros Hs. unfold histogram. py_unfold.
  cbn [t_size t step constructed]. rewrite bin_centers_1.
  change (1 + 1 <? 0)%Z with false. change (Z.to_nat (1 + 1)) with 2%nat.
  cbn [length broadcast_width Nat.eqb map repeat expand zip_with sum_dim0
       fold_right INR].
  assert (E0 : Rabs (s - (0 + 0 * (1 / 1))) = s)
    by (rewrite Rabs_right; lra).
  assert (E1 : Rabs (s - (0 + 1 * (1 / 1))) = 1 - s)
    by (rewrite Rabs_left1; lra).
  rewrite E0, E1. unfold Rgtb.
  destruct (Rlt_dec (1 / 1) s) as [N | _]; [lra |].
  destruct (Rlt_dec (1 / 1) (1 - s)) as [N | _]; [lra |].
  f_equal. f_equal. f_equal; [field | f_equal; field].
Qed.

(** C6, as stated, fails: for the score 0 the histogram is [[1, 0]], not
    [[0, 1]]. *)
Lemma histogram_of_zero_score :
  ~ histogram_returns_s_then_complement (constructed (1 / 2) cpu 1) 0.
Proof.
  unfold histogram_returns_s_then_complement.
  rewrite histogram_num_bins_1 by lra. cbn [snd].
  intros H. injection H as H _. lra.
Qed.

(** C6, amended: for a module constructed with [num_bins == 1] and a
    single score [s] in [0,1], [histogram] of the one-element column [[s]]
    returns the vector of length 2 with first entry [1 - s] and second
    entry [s]; its entries sum to 1 and the module is unchanged. *)
Theorem histogram_single_score (p : R) (dev : Device) (proxy dist_name : string)
    (log log' : list event) (m : LabelDistributionLoss) (s : R) :
  __init__ p dev 1 proxy dist_name log = (log', Return m) ->
  0 <= s <= 1 ->
  histogram [s] m = (m, Return [1 - s; s])
  /\ length [1 - s; s] = 2%nat
  /\ tsum [1 - s; s] = 1.
Proof.
  intros Hm Hs.
  destruct (init_success _ _ _ _ _ _ _ _ Hm) as (_ & _ & _ & _ & _ & ->).
  split; [now apply histogram_num_bins_1 |].
  split; [reflexivity |]. unfold tsum. cbn [fold_right]. lra.
Qed.

Lemma histogram_single_score_witness :
  histogram [1 / 4] (constructed (1 / 2) cpu 1)
  = (constructed (1 / 2) cpu 1, Return [1 - 1 / 4; 1 / 4])
  /\ length [1 - 1 / 4; 1 / 4] = 2%nat
  /\ tsum [1 - 1 / 4; 1 / 4] = 1.
Proof.
  assert (Hi : __init__ (1 / 2) cpu 1 "polar" "L1" []
               = ([] ++ construction_log (1 / 2) cpu 1,
                  Return (constructed (1 / 2) cpu 1)))
    by (apply init_polar_L1; [lra | lia | reflexivity]).
  assert (Hs : 0 <= 1 / 4 <= 1) by lra.
  exact (histogram_single_score (1 / 2) cpu "polar" "L1" [] _ _ (1 / 4) Hi Hs).
Defined.

(** C7 at [num_bins = 6]: construction succeeds and sets [t_size] to 7, but
    the bin-center tensor [t] has 8 elements, the last one being [7/6],
    beyond 1.  In binary64, [(1 + 1/6) / (1/6)] is just above 7, and
    [torch.arange] takes its ceiling as the number of elements. *)
Theorem bin_centers_overshoot_at_6 :
  exists log m,
    __init__ (1 / 2) cpu 6 "polar" "L1" [] = (log, Return m)
    /\ t_size m = 7%Z
    /\ length (t m) = 8%nat
    /\ nth 7 (t m) 0 = 7 / 6
    /\ 1 < nth 7 (t m) 0.
Proof.
  exists ([] ++ construction_log (1 / 2) cpu 6), (constructed (1 / 2) cpu 6).
  split; [apply init_polar_L1; [lra | lia | reflexivity] |].
  cbn [t_size t constructed].
  split; [reflexivity |].
  split; [apply bin_centers_6_length |].
  rewrite bin_centers_6_last. split; [reflexivity | lra].
Qed.

(* ------------------------------------------------------------------ *)
(** * The soft histogram, bin by bin *)

Lemma zip_with_map_map {A B C D} (g : B -> C -> D) (f1 : A -> B) (f2 : A -> C)
    (l : list A) :
  zip_with g (map f1 l) (map f2 l) = map (fun x => g (f1 x) (f2 x)) l.
Proof.
  induction l as [| x l IH]; cbn [map zip_with]; [reflexivity | now rewrite IH].
Qed.

Lemma zip_with_repeat_l {A B C} (g : A -> B -> C) (a : A) (l : list B) :
  zip_with g (repeat a (length l)) l = map (g a) l.
Proof.
  induction l as [| x l IH]; cbn [length repeat map zip_with];
    [reflexivity | now rewrite IH].
Qed.

Lemma expand_same (row : list R) : expand (length row) row = row.
Proof. unfold expand. now rewrite Nat.eqb_refl. Qed.

Lemma sum_dim0_columns {A} (f : A -> R -> R) (cs : list R) (xs : list A) :
  sum_dim0 (length cs) (map (fun x => map (f x) cs) xs)
  = map (fun c => tsum (map (fun x => f x c) xs)) cs.
Proof.
  unfold sum_dim0, tsum.
  induction xs as [| x xs IH]; cbn [map fold_right].
  - induction cs as [| c cs IHc]; cbn [length repeat map];
      [reflexivity | now rewrite IHc].
  - rewrite IH. apply zip_with_map_map.
Qed.

Lemma histogram_run (m : LabelDistributionLoss) (scores : list R) :
  (0 <= t_size m)%Z -> Z.to_nat (t_size m) = length (t m) ->
  histogram scores m
  = (m, Return (map (fun c => tsum (map (hist_cell (step m) c) scores)
                              / (INR (length scores) * step m))
                    (t m))).
Proof.
  intros Hsz Hw. unfold histogram.
  unfold Py.bind, Py.gets, Py.ret, Py.raise.
  destruct (t_size m <? 0)%Z eqn:E; [lia |].
  rewrite Hw. unfold broadcast_width. rewrite Nat.eqb_refl.
  assert (Hh : map (fun row : list R =>
                    map Rabs (zip_with Rminus (expand (length (t m)) row)
                                       (expand (length (t m)) (t m))))
                   (map (fun s : R => repeat s (length (t m))) scores)
               = map (fun s => map (fun c => Rabs (s - c)) (t m)) scores).
  { rewrite map_map. apply map_ext. intros s. rewrite expand_same.
    replace (expand (length (t m)) (repeat s (length (t m))))
      with (repeat s (length (t m)))
      by (unfold expand; now rewrite repeat_length, Nat.eqb_refl).
    rewrite zip_with_repeat_l. now rewrite map_map. }
  rewrite Hh. clear Hh.
  rewrite zip_with_map_map.
  rewrite (map_ext _ (fun row => map (fun h => if Rgtb h (step m) then 0 else step m - h) row))
    by (intros row; apply zip_with_map_map).
  rewrite map_map.
  rewrite (map_ext _ (fun s => map (fun c => hist_cell (step m) c s) (t m)))
    by (intros s; now rewrite map_map).
  rewrite (sum_dim0_columns (fun s c => hist_cell (step m) c s)).
  rewrite map_map. reflexivity.
Qed.

Lemma histogram_mismatch (m : LabelDistributionLoss) (scores : list R) :
  (0 <= t_size m)%Z ->
  Z.to_nat (t_size m) <> length (t m) ->
  Z.to_nat (t_size m) <> 1%nat -> length (t m) <> 1%nat ->
  histogram scores m
  = (m, Raise (RuntimeError "The size of tensor a must match the size of tensor b")).
Proof.
  intros Hsz Hne H1 H2. unfold histogram.
  unfold Py.bind, Py.gets, Py.ret, Py.raise.
  destruct (t_size m <? 0)%Z eqn:E; [lia |].
  unfold broadcast_width.
  destruct (Nat.eqb_spec (Z.to_nat (t_size m)) (length (t m))); [contradiction |].
  destruct (Nat.eqb_spec (length (t m)) 1); [contradiction |].
  destruct (Nat.eqb_spec (Z.to_nat (t_size m)) 1); [contradiction |].
  reflexivity.
Qed.

Lemma hist_cell_range (step c s : R) :
  0 <= step -> 0 <= hist_cell step c s <= step.
Proof.
  intros Hs. unfold hist_cell, Rgtb.
  pose proof (Rabs_pos (s - c)).
  destruct (Rlt_dec step (Rabs (s - c))); lra.
Qed.

Lemma hist_cell_far (step c s : R) :
  step <= Rabs (s - c) -> hist_cell step c s = 0.
Proof.
  intros Hs. unfold hist_cell, Rgtb.
  destruct (Rlt_dec step (Rabs (s - c))); lra.
Qed.

Lemma tsum_range {A} (f : A -> R) (b : R) (xs : list A) :
  (forall x, 0 <= f x <= b) ->
  0 <= tsum (map f xs) <= INR (length xs) * b.
Proof.
  intros Hf. unfold tsum.
  induction xs as [| x xs IH].
  - cbn. lra.
  - cbn [map fold_right length]. rewrite S_INR. specialize (Hf x). lra.
Qed.

Lemma INR_length_pos {A} (xs : list A) : xs <> [] -> 0 < INR (length xs).
Proof.
  intros H. destruct xs as [| x xs]; [contradiction |].
  cbn [length]. rewrite S_INR. pose proof (pos_INR (length xs)). lra.
Qed.

Lemma tsum_all_zero {A} (f : A -> R) (xs : list A) :
  Forall (fun x => f x = 0) xs -> tsum (map f xs) = 0.
Proof.
  unfold tsum. induction 1 as [| x xs Hx _ IH]; cbn [map fold_right]; lra.
Qed.

(** X9: when the width [t_size] equals the number of bin centers, the
    broadcast, mask and column sum of [histogram] amount to this: the entry
    for the bin centred at [c] is the sum over the scores of their cells at
    [c], divided by [len(scores) * step]; the module is unchanged. *)
Theorem histogram_closed_form (m : LabelDistributionLoss) (scores : list R) :
  (0 <= t_size m)%Z -> Z.to_nat (t_size m) = length (t m) ->
  scores <> [] ->
  histogram scores m
  = (m, Return (map (fun c => tsum (map (hist_cell (step m) c) scores)
                              / (INR (length scores) * step m))
                    (t m))).
Proof. intros Hsz Hw _. now apply histogram_run. Qed.

Lemma constructed_1_width :
  Z.to_nat (t_size (constructed (1 / 2) cpu 1))
  = length (t (constructed (1 / 2) cpu 1)).
Proof. cbn [t_size t constructed]. now rewrite bin_centers_1. Qed.

Lemma histogram_closed_form_witness :
  histogram [1 / 4; 3 / 4] (constructed (1 / 2) cpu 1)
  = (constructed (1 / 2) cpu 1,
     Return (map (fun c => tsum (map (hist_cell (step (constructed (1 / 2) cpu 1)) c)
                                     [1 / 4; 3 / 4])
                           / (INR (length [1 / 4; 3 / 4])
                              * step (constructed (1 / 2) cpu 1)))
                 (t (constructed (1 / 2) cpu 1)))).
Proof.
  apply (histogram_closed_form (constructed (1 / 2) cpu 1) [1 / 4; 3 / 4]).
  - cbn [t_size constructed]. lia.
  - exact constructed_1_width.
  - discriminate.
Defined.

(** X10: for a constructed module whose bin-center tensor [t] is longer
    than [t_size] (what [torch.arange] yields for [num_bins = 6]),
    [histogram] raises [RuntimeError] on every column of scores: the widths
    of [scores_rep] and [t] cannot be broadcast. *)
Theorem histogram_overshoot_raises (p : R) (dev : Device) (n : Z)
    (proxy dist_name : string) (log log' : list event)
    (m : LabelDistributionLoss) (scores : list R) :
  __init__ p dev n proxy dist_name log = (log', Return m) ->
  (Z.to_nat (t_size m) < length (t m))%nat ->
  histogram scores m
  = (m, Raise (RuntimeError "The size of tensor a must match the size of tensor b")).
Proof.
  intros Hm Hlt.
  destruct (init_success _ _ _ _ _ _ _ _ Hm) as (_ & Hn & _ & _ & _ & ->).
  cbn [t_size t constructed] in *.
  apply histogram_mismatch; cbn [t_size t constructed]; lia.
Qed.

Lemma histogram_overshoot_raises_witness :
  histogram [1 / 4; 3 / 4] (constructed (1 / 2) cpu 6)
  = (constructed (1 / 2) cpu 6,
     Raise (RuntimeError "The size of tensor a must match the size of tensor b")).
Proof.
  apply (histogram_overshoot_raises (1 / 2) cpu 6 "polar" "L1" []
           ([] ++ construction_log (1 / 2) cpu 6)).
  - apply init_polar_L1; [lra | lia | reflexivity].
  - cbn [t_size t constructed]. rewrite bin_centers_6_length.
    change (Z.to_nat (6 + 1)) with 7%nat. lia.
Defined.

(** X11: for a constructed module whose [t] has [t_size] entries and a
    non-empty column of scores, [histogram] returns a vector of
    [num_bins + 1] entries, each between 0 and 1. *)
Theorem histogram_entries_bounded (p : R) (dev : Device) (n : Z)
    (proxy dist_name : string) (log log' : list event)
    (m : LabelDistributionLoss) (scores : list R) :
  __init__ p dev n proxy dist_name log = (log', Return m) ->
  length (t m) = Z.to_nat (t_size m) ->
  scores <> [] ->
  exists h,
    histogram scores m = (m, Return h)
    /\ numel h = (n + 1)%Z
    /\ Forall (fun x => 0 <= x <= 1) h.
Proof.
  intros Hm Hw Hne.
  destruct (init_success _ _ _ _ _ _ _ _ Hm) as (_ & Hn & _ & _ & _ & ->).
  cbn [t_size] in Hw.
  eexists. split; [apply histogram_run; cbn [t_size constructed]; [lia | now symmetry] |].
  cbn [t_size t step constructed] in *.
  pose proof (inv_num_bins_pos n Hn) as Hs.
  pose proof (INR_length_pos scores Hne) as Hl.
  split.
  - unfold numel. rewrite length_map, Hw. lia.
  - apply Forall_forall. intros x Hx. apply in_map_iff in Hx.
    destruct Hx as (c & <- & _).
    pose proof (tsum_range (hist_cell (1 / IZR n) c) (1 / IZR n) scores
                  (fun s => hist_cell_range _ c s (Rlt_le _ _ Hs))) as [L U].
    assert (Hd : 0 < INR (length scores) * (1 / IZR n)) by (apply Rmult_lt_0_compat; assumption).
    split.
    + apply Rmult_le_pos; [assumption |]. apply Rlt_le, Rinv_0_lt_compat, Hd.
    + apply (Rmult_le_reg_r (INR (length scores) * (1 / IZR n))); [assumption |].
      unfold Rdiv at 1. rewrite Rmult_assoc, Rinv_l by lra. lra.
Qed.

Lemma init_half_1 :
  __init__ (1 / 2) cpu 1 "polar" "L1" []
  = ([] ++ construction_log (1 / 2) cpu 1, Return (constructed (1 / 2) cpu 1)).
Proof. apply init_polar_L1; [lra | lia | reflexivity]. Qed.

Lemma histogram_entries_bounded_witness :
  exists h,
    histogram [1 / 4; 3 / 4] (constructed (1 / 2) cpu 1)
    = (constructed (1 / 2) cpu 1, Return h)
    /\ numel h = (1 + 1)%Z
    /\ Forall (fun x => 0 <= x <= 1) h.
Proof.
  apply (histogram_entries_bounded (1 / 2) cpu 1 "polar" "L1" [] _ _
           [1 / 4; 3 / 4] init_half_1).
  - symmetry. exact constructed_1_width.
  - discriminate.
Defined.

(** X12: a bin whose center is at least one bin width away from every
    score gets the entry 0. *)
Theorem histogram_far_scores (m : LabelDistributionLoss) (scores : list R)
    (j : nat) :
  (0 <= t_size m)%Z -> Z.to_nat (t_size m) = length (t m) ->
  scores <> [] ->
  (j < length (t m))%nat ->
  Forall (fun s => step m <= Rabs (s - nth j (t m) 0)) scores ->
  exists h,
    histogram scores m = (m, Return h) /\ nth j h 0 = 0.
Proof.
  intros Hsz Hw _ Hj Hfar.
  eexists. split; [now apply histogram_run |].
  set (f := fun c => tsum (map (hist_cell (step m) c) scores)
                     / (INR (length scores) * step m)).
  rewrite (nth_indep _ 0 (f 0)) by now rewrite length_map.
  rewrite map_nth. unfold f.
  rewrite tsum_all_zero.
  - unfold Rdiv. apply Rmult_0_l.
  - eapply Forall_impl; [| exact Hfar]. intros s Hs. now apply hist_cell_far.
Qed.

Lemma histogram_far_scores_witness :
  exists h,
    histogram [3; 5] (constructed (1 / 2) cpu 1)
    = (constructed (1 / 2) cpu 1, Return h)
    /\ nth 1 h 0 = 0.
Proof.
  apply (histogram_far_scores (constructed (1 / 2) cpu 1) [3; 5] 1).
  - cbn [t_size constructed]. lia.
  - exact constructed_1_width.
  - discriminate.
  - cbn [t constructed]. rewrite bin_centers_1. cbn [length]. lia.
  - cbn [t step constructed]. rewrite bin_centers_1. cbn [nth].
    constructor; [| constructor; [| constructor]].
    + rewrite Rabs_right; lra.
    + rewrite Rabs_right; lra.
Defined.

Lemma tsum_cells_left (scores : list R) :
  Forall (fun s => 0 <= s <= 1) scores ->
  tsum (map (hist_cell (1 / 1) (0 + 0 * (1 / 1))) scores)
  = INR (length scores) - tsum scores.
Proof.
  unfold tsum. induction 1 as [| s scores Hs _ IH].
  - cbn. lra.
  - cbn [map fold_right length]. rewrite S_INR, IH.
    unfold hist_cell, Rgtb.
    replace (Rabs (s - (0 + 0 * (1 / 1)))) with s by (rewrite Rabs_right; lra).
    destruct (Rlt_dec (1 / 1) s); lra.
Qed.

Lemma tsum_cells_right (scores : list R) :
  Forall (fun s => 0 <= s <= 1) scores ->
  tsum (map (hist_cell (1 / 1) (0 + 1 * (1 / 1))) scores) = tsum scores.
Proof.
  unfold tsum. induction 1 as [| s scores Hs _ IH].
  - reflexivity.
  - cbn [map fold_right]. rewrite IH.
    unfold hist_cell, Rgtb.
    replace (Rabs (s - (0 + 1 * (1 / 1)))) with (1 - s) by (rewrite Rabs_left1; lra).
    destruct (Rlt_dec (1 / 1) (1 - s)); lra.
Qed.

Lemma histogram_two_bins (p : R) (dev : Device) (scores : list R) :
  scores <> [] -> Forall (fun s => 0 <= s <= 1) scores ->
  histogram scores (constructed p dev 1)
  = (constructed p dev 1, Return [1 - mean scores; mean scores]).
Proof.
  intros Hne Hall.
  rewrite histogram_run;
    [| cbn [t_size constructed]; lia
     | cbn [t_size t constructed]; now rewrite bin_centers_1].
  cbn [t step constructed]. rewrite bin_centers_1. cbn [map].
  rewrite tsum_cells_left, tsum_cells_right by assumption.
  pose proof (INR_length_pos scores Hne) as Hl.
  unfold mean. do 3 f_equal; [| f_equal]; field; lra.
Qed.

(** X13: with [num_bins = 1], for a non-empty column of scores in [0,1],
    [histogram] returns [[1 - mean, mean]] with [mean] the mean score; the
    two entries sum to 1. *)
Theorem histogram_means (p : R) (dev : Device) (proxy dist_name : string)
    (log log' : list event) (m : LabelDistributionLoss) (scores : list R) :
  __init__ p dev 1 proxy dist_name log = (log', Return m) ->
  scores <> [] -> Forall (fun s => 0 <= s <= 1) scores ->
  histogram scores m = (m, Return [1 - mean scores; mean scores])
  /\ tsum [1 - mean scores; mean scores] = 1.
Proof.
  intros Hm Hne Hall.
  destruct (init_success _ _ _ _ _ _ _ _ Hm) as (_ & _ & _ & _ & _ & ->).
  split; [now apply histogram_two_bins |].
  unfold tsum. cbn [fold_right]. lra.
Qed.

Lemma histogram_means_witness :
  histogram [1 / 4; 1; 0] (constructed (1 / 2) cpu 1)
  = (constructed (1 / 2) cpu 1,
     Return [1 - mean [1 / 4; 1; 0]; mean [1 / 4; 1; 0]])
  /\ tsum [1 - mean [1 / 4; 1; 0]; mean [1 / 4; 1; 0]] = 1.
Proof.
  apply (histogram_means (1 / 2) cpu "polar" "L1" [] _ _ [1 / 4; 1; 0] init_half_1).
  - discriminate.
  - repeat (constructor; [lra |]). constructor.
Defined.

Lemma tsum_app (xs ys : list R) : tsum (xs ++ ys) = tsum xs + tsum ys.
Proof.
  unfold tsum. induction xs as [| x xs IH]; cbn [app fold_right]; lra.
Qed.

Lemma tsum_map_plus {A} (f g : A -> R) (xs : list A) :
  tsum (map (fun x => f x + g x) xs) = tsum (map f xs) + tsum (map g xs).
Proof.
  unfold tsum. induction xs as [| x xs IH]; cbn [map fold_right]; lra.
Qed.

Lemma tsum_map_div {A} (f : A -> R) (d : R) (xs : list A) :
  tsum (map (fun x => f x / d) xs) = tsum (map f xs) / d.
Proof.
  unfold tsum. induction xs as [| x xs IH]; cbn [map fold_right].
  - unfold Rdiv. now rewrite Rmult_0_l.
  - rewrite IH. unfold Rdiv. ring.
Qed.

Lemma tsum_swap {A B} (g : A -> B -> R) (cs : list A) (xs : list B) :
  tsum (map (fun c => tsum (map (g c) xs)) cs)
  = tsum (map (fun x => tsum (map (fun c => g c x) cs)) xs).
Proof.
  induction cs as [| c cs IH]; cbn [map].
  - unfold tsum at 1. cbn [fold_right]. symmetry.
    apply tsum_all_zero. apply Forall_forall. reflexivity.
  - change (tsum (?a :: ?l)) with (a + tsum l). rewrite IH.
    rewrite <- tsum_map_plus. reflexivity.
Qed.

Lemma tsum_map_const {A} (f : A -> R) (b : R) (xs : list A) :
  Forall (fun x => f x = b) xs -> tsum (map f xs) = INR (length xs) * b.
Proof.
  unfold tsum. induction 1 as [| x xs Hx _ IH].
  - cbn. lra.
  - cbn [map fold_right length]. rewrite S_INR, IH, Hx. ring.
Qed.

(** The cells of one score over the first [j + 1] bin centers. *)
Lemma cells_prefix (step s : R) (j : nat) :
  0 < step -> 0 <= s ->
  let total := tsum (map (fun c => hist_cell step c s)
                         (map (fun i => 0 + INR i * step) (seq 0 (S j)))) in
  (s <= INR j * step -> total = step)
  /\ (INR j * step <= s <= INR (S j) * step -> total = INR (S j) * step - s)
  /\ (INR (S j) * step <= s -> total = 0).
Proof.
  intros Hstep Hs. induction j as [| j IH].
  - cbn [seq map]. unfold tsum. cbn [fold_right INR].
    unfold hist_cell, Rgtb.
    destruct (Rlt_dec step (Rabs (s - (0 + 0 * step)))) as [G | G];
      revert G; unfold Rabs; destruct (Rcase_abs (s - (0 + 0 * step)));
      intros G; repeat split; intros; lra.
  - cbn zeta in IH. destruct IH as (IH1 & IH2 & IH3).
    rewrite seq_S, !map_app, tsum_app. cbn [Nat.add map].
    set (prev := tsum (map (fun c => hist_cell step c s)
                           (map (fun i => 0 + INR i * step) (seq 0 (S j))))) in *.
    change (tsum [?a]) with (a + 0).
    rewrite !S_INR in *.
    set (x := INR j * step) in *.
    replace ((INR j + 1) * step) with (x + step) in * by (unfold x; ring).
    replace ((INR j + 1 + 1) * step) with (x + step + step) by (unfold x; ring).
    unfold hist_cell, Rgtb.
    destruct (Rlt_dec step (Rabs (s - (0 + (x + step))))) as [G | G];
      revert G; unfold Rabs; destruct (Rcase_abs (s - (0 + (x + step))));
      intros G; repeat split; intros;
      destruct (Rle_dec s x);
      try (rewrite IH1 by lra; lra);
      try (rewrite IH2 by lra; lra);
      try (rewrite IH3 by lra; lra).
Qed.

Lemma cells_total (n : Z) (s : R) :
  (0 < n)%Z -> 0 <= s <= 1 ->
  tsum (map (fun c => hist_cell (1 / IZR n) c s)
            (map (fun i => 0 + INR i * (1 / IZR n)) (seq 0 (S (Z.to_nat n)))))
  = 1 / IZR n.
Proof.
  intros Hn Hs.
  pose proof (cells_prefix (1 / IZR n) s (Z.to_nat n) (inv_num_bins_pos n Hn)
                (proj1 Hs)) as (H1 & _ & _).
  apply H1. rewrite INR_IZR_INZ, Z2Nat.id by lia.
  assert (0 < IZR n) by (apply IZR_lt; lia).
  replace (IZR n * (1 / IZR n)) with 1 by (field; lra). lra.
Qed.

Lemma bin_centers_exact (n : Z) :
  length (bin_centers n) = S (Z.to_nat n) ->
  bin_centers n
  = map (fun i => 0 + INR i * (1 / IZR n)) (seq 0 (S (Z.to_nat n))).
Proof.
  unfold bin_centers. rewrite length_map, length_seq. intros ->. reflexivity.
Qed.

(** X14: for a constructed module whose [t] has [t_size] entries, whatever
    the number of bins, the entries of the histogram of a non-empty column
    of scores in [0,1] sum to 1. *)
Theorem histogram_mass_one (p : R) (dev : Device) (n : Z)
    (proxy dist_name : string) (log log' : list event)
    (m : LabelDistributionLoss) (scores : list R) :
  __init__ p dev n proxy dist_name log = (log', Return m) ->
  length (t m) = Z.to_nat (t_size m) ->
  scores <> [] -> Forall (fun s => 0 <= s <= 1) scores ->
  exists h, histogram scores m = (m, Return h) /\ tsum h = 1.
Proof.
  intros Hm Hw Hne Hall.
  destruct (init_success _ _ _ _ _ _ _ _ Hm) as (_ & Hn & _ & _ & _ & ->).
  cbn [t_size t constructed] in Hw.
  replace (Z.to_nat (n + 1)) with (S (Z.to_nat n)) in Hw by lia.
  eexists. split.
  - apply histogram_run; cbn [t_size t constructed]; [lia |].
    rewrite Hw. lia.
  - cbn [t step constructed]. rewrite (bin_centers_exact n Hw).
    rewrite (tsum_map_div
               (fun c => tsum (map (hist_cell (1 / IZR n) c) scores))).
    rewrite (tsum_swap (hist_cell (1 / IZR n))).
    rewrite (tsum_map_const _ (1 / IZR n)).
    + pose proof (INR_length_pos scores Hne).
      pose proof (inv_num_bins_pos n Hn).
      field. split; [| lra].
      apply IZR_pos_neq0. assumption.
    + eapply Forall_impl; [| exact Hall]. intros s Hs.
      now apply cells_total.
Qed.

Lemma arange_numel_2 :
  let step64 := (1 / Binary64.of_Z 2)%float in
  torch.arange_numel (1 + step64)%float step64 = 3%Z.
Proof. vm_compute. reflexivity. Qed.

Lemma histogram_mass_one_witness :
  exists h,
    histogram [1 / 4; 3 / 4; 1] (constructed (1 / 2) cpu 2)
    = (constructed (1 / 2) cpu 2, Return h)
    /\ tsum h = 1.
Proof.
  apply (histogram_mass_one (1 / 2) cpu 2 "polar" "L1" []
           ([] ++ construction_log (1 / 2) cpu 2)).
  - apply init_polar_L1; [lra | lia | reflexivity].
  - cbn [t_size t constructed]. unfold bin_centers.
    rewrite arange_numel_2. reflexivity.
  - discriminate.
  - repeat (constructor; [lra |]). constructor.
Defined.


(* ------------------------------------------------------------------ *)
(** * Bounds and symmetries of the forward pass *)

Lemma sigmoid_range (x : R) : 0 < torch.sigmoid_scalar x < 1.
Proof.
  unfold torch.sigmoid_scalar. pose proof (exp_pos (- x)) as He.
  assert (Hd : 0 < 1 + exp (- x)) by lra.
  split.
  - apply Rdiv_lt_0_compat; lra.
  - apply (Rmult_lt_reg_r (1 + exp (- x))); [assumption |].
    unfold Rdiv. rewrite Rmult_assoc, Rinv_l by lra. lra.
Qed.

Lemma mean_le {A} (f : A -> R) (b : R) (xs : list A) :
  xs <> [] -> (forall x, 0 <= f x <= b) -> 0 <= mean (map f xs) <= b.
Proof.
  intros Hne Hf. unfold mean. rewrite length_map.
  pose proof (INR_length_pos xs Hne) as Hl.
  pose proof (tsum_range f b xs Hf) as [L U].
  split.
  - apply Rmult_le_pos; [assumption |]. apply Rlt_le, Rinv_0_lt_compat, Hl.
  - apply (Rmult_le_reg_r (INR (length xs))); [assumption |].
    unfold Rdiv. rewrite Rmult_assoc, Rinv_l by lra. lra.
Qed.

Lemma guarded_mean_le (lbl : Z) (c : R) (outputs : list R) (labels : list Z) :
  0 <= c <= 1 ->
  0 <= (if (0 <? numel (examples_with lbl outputs labels))%Z
        then mean_abs_dev lbl c outputs labels else 0) <= 1.
Proof.
  intros Hc. destruct (0 <? numel (examples_with lbl outputs labels))%Z eqn:E;
    [| lra].
  apply numel_pos_length in E. unfold mean_abs_dev. apply mean_le.
  - intros N. rewrite N in E. cbn in E. lia.
  - intros o. pose proof (sigmoid_range o). split; [apply Rabs_pos |].
    unfold Rabs. destruct (Rcase_abs _); lra.
Qed.

(** X2: for a prior [p] in (0,1), the value [forward] returns on a
    well-shaped batch is at most [1 + 1/(2p)]. *)
Theorem forward_upper_bound (p : R) (dev : Device) (n : Z)
    (proxy dist_name : string) (log log' : list event)
    (m : LabelDistributionLoss) (outputs : list R) (labels : list Z) :
  0 < p < 1 ->
  __init__ p dev n proxy dist_name log = (log', Return m) ->
  length outputs = length labels ->
  exists v,
    forward outputs labels m = (m, Return v) /\ v <= 1 + 1 / (2 * p).
Proof.
  intros Hp Hm Hlen.
  rewrite (forward_constructed _ _ _ _ _ _ _ _ _ _ Hm Hlen).
  eexists. split; [reflexivity |].
  pose proof (guarded_mean_le 1 1 outputs labels ltac:(lra)) as [_ U1].
  pose proof (guarded_mean_le 0 p outputs labels ltac:(lra)) as [L0 U0].
  assert (Hf : 0 < 1 / (2 * p)) by (apply Rdiv_lt_0_compat; lra).
  set (a := if (0 <? numel (examples_with 1 outputs labels))%Z then _ else 0) in *.
  set (b := if (0 <? numel (examples_with 0 outputs labels))%Z then _ else 0) in *.
  assert (1 / (2 * p) * b <= 1 / (2 * p) * 1)
    by (apply Rmult_le_compat_l; lra).
  lra.
Qed.

Lemma forward_upper_bound_witness :
  exists v,
    forward [0; 3] [1%Z; 0%Z] (constructed (1 / 2) cpu 1)
    = (constructed (1 / 2) cpu 1, Return v)
    /\ v <= 1 + 1 / (2 * (1 / 2)).
Proof.
  assert (Hp : 0 < 1 / 2 < 1) by lra.
  exact (forward_upper_bound (1 / 2) cpu 1 "polar" "L1" [] _ _
           [0; 3] [1%Z; 0%Z] Hp init_half_1 eq_refl).
Defined.

Lemma tsum_perm (xs ys : list R) : Permutation xs ys -> tsum xs = tsum ys.
Proof.
  unfold tsum. induction 1; cbn [fold_right]; lra.
Qed.

Lemma filter_perm {A} (f : A -> bool) (xs ys : list A) :
  Permutation xs ys -> Permutation (filter f xs) (filter f ys).
Proof.
  induction 1 as [| x xs ys _ IH | x y xs | xs ys zs _ IH1 _ IH2];
    cbn [filter].
  - constructor.
  - destruct (f x); [now constructor | assumption].
  - destruct (f x), (f y); try reflexivity. constructor.
  - now transitivity (filter f ys).
Qed.

Lemma examples_with_perm (lbl : Z) (outputs outputs' : list R)
    (labels labels' : list Z) :
  Permutation (combine outputs labels) (combine outputs' labels') ->
  Permutation (examples_with lbl outputs labels)
              (examples_with lbl outputs' labels').
Proof.
  intros H. unfold examples_with. now apply Permutation_map, filter_perm.
Qed.

Lemma guarded_mean_perm (lbl : Z) (c : R) (outputs outputs' : list R)
    (labels labels' : list Z) :
  Permutation (combine outputs labels) (combine outputs' labels') ->
  (if (0 <? numel (examples_with lbl outputs labels))%Z
   then mean_abs_dev lbl c outputs labels else 0)
  = (if (0 <? numel (examples_with lbl outputs' labels'))%Z
     then mean_abs_dev lbl c outputs' labels' else 0).
Proof.
  intros H. pose proof (examples_with_perm lbl _ _ _ _ H) as Hp.
  unfold numel, mean_abs_dev, mean. rewrite !length_map.
  rewrite (Permutation_length Hp).
  rewrite (tsum_perm _ _ (Permutation_map
             (fun o => Rabs (torch.sigmoid_scalar o - c)) Hp)).
  reflexivity.
Qed.

(** X3: [forward] does not depend on the order of the examples: two
    well-shaped batches whose (output, label) pairs are permutations of each
    other give the same result. *)
Theorem forward_permutation (p : R) (dev : Device) (n : Z)
    (proxy dist_name : string) (log log' : list event)
    (m : LabelDistributionLoss) (outputs outputs' : list R)
    (labels labels' : list Z) :
  __init__ p dev n proxy dist_name log = (log', Return m) ->
  length outputs = length labels -> length outputs' = length labels' ->
  Permutation (combine outputs labels) (combine outputs' labels') ->
  forward outputs labels m = forward outputs' labels' m.
Proof.
  intros Hm Hl Hl' Hperm.
  rewrite (forward_constructed _ _ _ _ _ _ _ _ _ _ Hm Hl).
  rewrite (forward_constructed _ _ _ _ _ _ _ _ _ _ Hm Hl').
  now rewrite (guarded_mean_perm 1 1 _ _ _ _ Hperm),
              (guarded_mean_perm 0 p _ _ _ _ Hperm).
Qed.

Lemma forward_permutation_witness :
  forward [0; 3; 5] [1%Z; 0%Z; 1%Z] (constructed (1 / 2) cpu 1)
  = forward [3; 0; 5] [0%Z; 1%Z; 1%Z] (constructed (1 / 2) cpu 1).
Proof.
  apply (forward_permutation (1 / 2) cpu 1 "polar" "L1" [] _ _
           [0; 3; 5] [3; 0; 5] [1%Z; 0%Z; 1%Z] [0%Z; 1%Z; 1%Z]
           init_half_1 eq_refl eq_refl).
  cbn [combine]. apply perm_swap.
Defined.

(** X1: [forward] returns a value exactly when [outputs] and [labels] have
    the same number of elements, and raises [RuntimeError] (from [view_as])
    exactly when they do not; the module is unchanged either way. *)
Theorem forward_returns_iff (m : LabelDistributionLoss) (outputs : list R)
    (labels : list Z) :
  ((exists v, forward outputs labels m = (m, Return v))
   <-> length outputs = length labels)
  /\ (forward outputs labels m
      = (m, Raise (RuntimeError "shape is invalid for input size"))
      <-> length outputs <> length labels).
Proof.
  destruct (Nat.eq_dec (length outputs) (length labels)) as [E | N].
  - rewrite (forward_run m outputs labels E). split; split; intros H.
    + assumption.
    + eexists. reflexivity.
    + discriminate H.
    + contradiction.
  - rewrite (forward_shape_mismatch m outputs labels N). split; split; intros H.
    + destruct H as [v H]. discriminate H.
    + contradiction.
    + assumption.
    + reflexivity.
Qed.


(* ------------------------------------------------------------------ *)
(** * Outcomes of construction *)

(** X4: the constructor returns a module exactly when the prior is
    nonzero, [num_bins] is positive, [dist] is "L1", [proxy] is "polar" and
    the runtime can place tensors on the device. *)
Theorem init_returns_iff (p : R) (dev : Device) (n : Z)
    (proxy dist_name : string) (log : list event) :
  (exists log' m, __init__ p dev n proxy dist_name log = (log', Return m))
  <-> p <> 0 /\ (0 < n)%Z /\ dist_name = "L1"%string
      /\ proxy = "polar"%string /\ device_error dev = None.
Proof.
  split.
  - intros (log' & m & H).
    destruct (init_success _ _ _ _ _ _ _ _ H) as (Hp & Hn & Hd & Hx & _).
    pose proof (init_success_device _ _ _ _ _ _ _ _ H) as Hdev.
    repeat split; assumption.
  - intros (Hp & Hn & -> & -> & Hdev). do 2 eexists. now apply init_polar_L1.
Qed.

Lemma arange_minus_one (k : Z) (log : list event) :
  torch.arange (1 + 1 / IZR (-1)) (1 / IZR (-1)) k log
  = (log ++ [arange_event (-1)],
     Return (map (fun i => 0 + INR i * (1 / IZR (-1))) (seq 0 (Z.to_nat k)))).
Proof.
  unfold torch.arange. py_unfold. unfold emit.
  destruct (Req_dec_T (1 / -1) 0) as [E | _]; [lra |].
  destruct (Rlt_dec 0 (1 / -1)) as [N | _]; [lra |].
  destruct (Rle_dec (1 + 1 / -1) 0) as [_ | N]; [| lra].
  reflexivity.
Qed.

Lemma polar_proxies_zero (log : list event) :
  polar_proxies 0 log
  = (log ++ [NumpyZeros 0; NumpyZerosLike],
     Raise (IndexError "index is out of bounds for axis 0")).
Proof.
  unfold polar_proxies, np.zeros, np.zeros_like, np.setitem.
  py_unfold. unfold emit. cbn. now rewrite <- app_assoc.
Qed.

Lemma init_minus_one (p : R) (dev : Device) (proxy dist_name : string)
    (log : list event) :
  p <> 0 ->
  __init__ p dev (-1) proxy dist_name log
  = if (dist_name =? "L1")%string then
      if (proxy =? "polar")%string then
        (log ++ [arange_event (-1); NumpyZeros 0; NumpyZerosLike],
         Raise (IndexError "index is out of bounds for axis 0"))
      else (log ++ [arange_event (-1)],
            Raise (NotImplementedError
                     ("The proxy: " ++ proxy ++ " is not defined!")))
    else (log ++ [arange_event (-1)],
          Raise (NotImplementedError
                   ("The distance: " ++ dist_name ++ " is not defined!"))).
Proof.
  intros Hp. unfold __init__.
  unfold Py.bind at 1. unfold Py.truediv at 1.
  destruct (Req_dec_T (2 * p) 0) as [E | _]; [lra |].
  unfold Py.ret at 1.
  unfold Py.bind at 1. unfold Py.truediv at 1.
  destruct (Req_dec_T (-1) 0) as [E | _]; [lra |].
  unfold Py.ret at 1.
  unfold Py.bind at 1. rewrite arange_minus_one.
  unfold Py.bind at 1.
  destruct (dist_name =? "L1")%string; [| reflexivity].
  unfold Py.ret at 1. unfold Py.bind at 1.
  destruct (proxy =? "polar")%string; [| reflexivity].
  change (-1 + 1)%Z with 0%Z. rewrite polar_proxies_zero.
  now rewrite <- app_assoc.
Qed.

Lemma init_below_minus_one (p : R) (dev : Device) (n : Z)
    (proxy dist_name : string) (log : list event) :
  p <> 0 -> (n < -1)%Z ->
  __init__ p dev n proxy dist_name log
  = (log ++ [arange_event n],
     Raise (RuntimeError "upper bound and larger bound inconsistent with step sign")).
Proof.
  intros Hp Hn. unfold __init__.
  unfold Py.bind at 1. unfold Py.truediv at 1.
  destruct (Req_dec_T (2 * p) 0) as [E | _]; [lra |].
  unfold Py.ret at 1.
  unfold Py.bind at 1. unfold Py.truediv at 1.
  destruct (Req_dec_T (IZR n) 0) as [E | _].
  { apply eq_IZR_R0 in E. lia. }
  unfold Py.ret at 1.
  unfold Py.bind at 1. now rewrite arange_negative.
Qed.

(** X5: a negative [num_bins] makes construction fail after the call of
    [torch.arange]: below -1 the call itself raises [RuntimeError] (the
    bounds disagree with the negative step), whatever [proxy] and [dist]
    are; at -1 the bin tensor and the proxy arrays are empty and
    [proxy_p[-1] = 1] raises [IndexError]. *)
Theorem init_negative_num_bins (p : R) (dev : Device) (n : Z)
    (proxy dist_name : string) (log : list event) :
  p <> 0 -> (n < 0)%Z ->
  (n < -1)%Z
  /\ __init__ p dev n proxy dist_name log
     = (log ++ [arange_event n],
        Raise (RuntimeError
                 "upper bound and larger bound inconsistent with step sign"))
  \/ n = (-1)%Z
     /\ __init__ p dev n "polar" "L1" log
        = (log ++ [arange_event (-1); NumpyZeros 0; NumpyZerosLike],
           Raise (IndexError "index is out of bounds for axis 0")).
Proof.
  intros Hp Hn. destruct (Z.eq_dec n (-1)) as [-> | N].
  - right. split; [reflexivity |]. now rewrite init_minus_one.
  - left. split; [lia |]. apply init_below_minus_one; [assumption | lia].
Qed.

Lemma init_negative_num_bins_witness :
  (-3 < -1)%Z
  /\ __init__ (1 / 2) cpu (-3) "polar" "L1" []
     = ([] ++ [arange_event (-3)],
        Raise (RuntimeError
                 "upper bound and larger bound inconsistent with step sign"))
  \/ (-3)%Z = (-1)%Z
     /\ __init__ (1 / 2) cpu (-3) "polar" "L1" []
        = ([] ++ [arange_event (-1); NumpyZeros 0; NumpyZerosLike],
           Raise (IndexError "index is out of bounds for axis 0")).
Proof.
  apply (init_negative_num_bins (1 / 2) cpu (-3) "polar" "L1" []); [lra | lia].
Defined.

(** X6: a construction that raises has either printed nothing, converted
    no array to a tensor and moved nothing to the device (what it added to
    the log holds no such event), or it has failed at the first
    [.to(self.device)] with the exception of the runtime for that device,
    all other arguments being valid, after the five printed lines and the
    two conversions. *)
Theorem init_failure_output (p : R) (dev : Device) (n : Z)
    (proxy dist_name : string) (log log' : list event) (e : exn) :
  __init__ p dev n proxy dist_name log = (log', Raise e) ->
  (exists extra, log' = log ++ extra /\ existsb after_checks extra = false)
  \/ (p <> 0 /\ (0 < n)%Z /\ dist_name = "L1"%string /\ proxy = "polar"%string
      /\ device_error dev = Some e
      /\ log' = log ++ placement_failure_log p dev n).
Proof.
  intros H.
  destruct (Req_dec_T p 0) as [-> | Hp].
  { left. rewrite init_prior_zero in H. injection H as <- _.
    exists []. now rewrite app_nil_r. }
  destruct (Z.lt_trichotomy n 0) as [L | [-> | G]].
  - left. destruct (Z.eq_dec n (-1)) as [-> | N].
    + rewrite init_minus_one in H by assumption.
      destruct (dist_name =? "L1")%string;
        [destruct (proxy =? "polar")%string |];
        injection H as <- _; eexists; split; reflexivity.
    + rewrite init_below_minus_one in H by (try assumption; lia).
      injection H as <- _. eexists; split; reflexivity.
  - left. rewrite init_num_bins_zero in H by assumption. injection H as <- _.
    exists []. now rewrite app_nil_r.
  - assert (Hn : (0 < n)%Z) by lia.
    destruct (String.eqb_spec dist_name "L1") as [-> | Nd].
    + destruct (String.eqb_spec proxy "polar") as [-> | Nx].
      * destruct (device_error dev) as [e' |] eqn:Hdev.
        -- right. rewrite (init_device_error p dev n log e') in H by assumption.
           injection H as <- <-. repeat split; assumption.
        -- rewrite init_polar_L1 in H by assumption. discriminate H.
      * left. rewrite init_bad_proxy in H by assumption.
        injection H as <- _. eexists; split; reflexivity.
    + left. rewrite init_bad_dist in H by assumption.
      injection H as <- _. eexists; split; reflexivity.
Qed.

Lemma init_failure_output_witness :
  (exists extra,
      [] ++ placement_failure_log (1 / 2) cuda_missing 1 = [] ++ extra
      /\ existsb after_checks extra = false)
  \/ (1 / 2 <> 0 /\ (0 < 1)%Z /\ "L1"%string = "L1"%string
      /\ "polar"%string = "polar"%string
      /\ device_error cuda_missing
         = Some (AssertionError "Torch not compiled with CUDA enabled")
      /\ [] ++ placement_failure_log (1 / 2) cuda_missing 1
         = [] ++ placement_failure_log (1 / 2) cuda_missing 1).
Proof.
  apply (init_failure_output (1 / 2) cuda_missing 1 "polar" "L1" []).
  apply init_device_error; [lra | lia | reflexivity].
Defined.

Lemma tsum_one_hot_from (k s m : nat) :
  (s <= k < s + m)%nat ->
  tsum (map (fun i => if (i =? k)%nat then 1 else 0) (seq s m)) = 1.
Proof.
  unfold tsum. revert s. induction m as [| m IH]; intros s H; [lia |].
  cbn [seq map fold_right]. destruct (Nat.eqb_spec s k) as [-> | N].
  - fold (tsum (map (fun i => if (i =? k)%nat then 1 else 0) (seq (S k) m))).
    rewrite tsum_all_zero; [lra |].
    apply Forall_forall. intros i Hi. apply in_seq in Hi.
    destruct (Nat.eqb_spec i k); [lia | reflexivity].
  - rewrite IH by lia. lra.
Qed.

Lemma tsum_one_hot (n k : nat) : (k < n)%nat -> tsum (one_hot n k) = 1.
Proof. intros H. unfold one_hot. apply tsum_one_hot_from. lia. Qed.

Lemma mix_one_hot (p : R) (n k j : nat) :
  mix_proxies p (one_hot n k) (one_hot n j)
  = map (fun i => p * (if (i =? k)%nat then 1 else 0)
                  + (1 - p) * (if (i =? j)%nat then 1 else 0)) (seq 0 n).
Proof.
  unfold mix_proxies, np.add, np.scale, one_hot.
  rewrite !map_map. apply zip_with_map_map.
Qed.

(** X7: for a prior in (0,1), the proxies of a constructed module are
    distributions: the entries of [proxy_p] sum to 1, those of [proxy_mix]
    sum to 1 and each lies between 0 and 1. *)
Theorem proxies_are_distributions (p : R) (dev : Device) (n : Z)
    (proxy dist_name : string) (log log' : list event)
    (m : LabelDistributionLoss) :
  0 < p < 1 ->
  __init__ p dev n proxy dist_name log = (log', Return m) ->
  tsum (proxy_p m) = 1
  /\ tsum (proxy_mix m) = 1
  /\ Forall (fun x => 0 <= x <= 1) (proxy_mix m).
Proof.
  intros Hp Hm.
  destruct (init_success _ _ _ _ _ _ _ _ Hm) as (_ & Hn & _ & _ & _ & ->).
  cbn [proxy_p proxy_mix constructed].
  rewrite polar_p_one_hot, polar_n_one_hot by assumption.
  rewrite mix_one_hot.
  split; [apply tsum_one_hot; lia |]. split.
  - rewrite (tsum_map_plus
               (fun i => p * (if (i =? Z.to_nat n)%nat then 1 else 0))
               (fun i => (1 - p) * (if (i =? 0)%nat then 1 else 0))).
    assert (Hs : forall (c : R) (f : nat -> R) (l : list nat),
               tsum (map (fun i => c * f i) l) = c * tsum (map f l)).
    { intros c f l. unfold tsum. induction l as [| i l IH];
        cbn [map fold_right]; [lra | rewrite IH; ring]. }
    rewrite !Hs.
    fold (one_hot (S (Z.to_nat n)) (Z.to_nat n)).
    fold (one_hot (S (Z.to_nat n)) 0).
    rewrite !tsum_one_hot by lia. lra.
  - apply Forall_forall. intros x Hx. apply in_map_iff in Hx.
    destruct Hx as (i & <- & _).
    destruct (i =? Z.to_nat n)%nat, (i =? 0)%nat; lra.
Qed.

Lemma proxies_are_distributions_witness :
  tsum (proxy_p (constructed (1 / 4) cpu 3)) = 1
  /\ tsum (proxy_mix (constructed (1 / 4) cpu 3)) = 1
  /\ Forall (fun x => 0 <= x <= 1) (proxy_mix (constructed (1 / 4) cpu 3)).
Proof.
  assert (Hp : 0 < 1 / 4 < 1) by lra.
  assert (Hi : __init__ (1 / 4) cpu 3 "polar" "L1" []
               = ([] ++ construction_log (1 / 4) cpu 3,
                  Return (constructed (1 / 4) cpu 3)))
    by (apply init_polar_L1; [lra | lia | reflexivity]).
  exact (proxies_are_distributions (1 / 4) cpu 3 "polar" "L1" [] _ _ Hp Hi).
Defined.

(** X8: with [num_bins = 1] the constructed module has the bin centers
    [[0, 1]], [t_size = 2], [step = 1], [proxy_p = [0, 1]] and
    [proxy_mix = [1 - prior, prior]], and keeps the prior, [1/(2 prior)]
    and the device. *)
Theorem init_default_bins (p : R) (dev : Device) (proxy dist_name : string)
    (log log' : list event) (m : LabelDistributionLoss) :
  __init__ p dev 1 proxy dist_name log = (log', Return m) ->
  t m = [0; 1] /\ t_size m = 2%Z /\ step m = 1
  /\ proxy_p m = [0; 1] /\ proxy_mix m = [1 - p; p]
  /\ prior m = p /\ frac_prior m = 1 / (2 * p) /\ device m = dev.
Proof.
  intros Hm.
  destruct (init_success _ _ _ _ _ _ _ _ Hm) as (_ & _ & _ & _ & _ & ->).
  cbn [t t_size step proxy_p proxy_mix prior frac_prior device constructed].
  rewrite bin_centers_1.
  repeat split.
  - repeat (f_equal; try lra).
  - lra.
  - unfold polar_p, polar_n, mix_proxies, np.add, np.scale.
    change (Z.to_nat (1 + 1)) with 2%nat. change (Z.to_nat 1) with 1%nat.
    cbn [repeat map list_set zip_with]. repeat (f_equal; try lra).
Qed.

Lemma init_default_bins_witness :
  t (constructed (1 / 2) cpu 1) = [0; 1]
  /\ t_size (constructed (1 / 2) cpu 1) = 2%Z
  /\ step (constructed (1 / 2) cpu 1) = 1
  /\ proxy_p (constructed (1 / 2) cpu 1) = [0; 1]
  /\ proxy_mix (constructed (1 / 2) cpu 1) = [1 - 1 / 2; 1 / 2]
  /\ prior (constructed (1 / 2) cpu 1) = 1 / 2
  /\ frac_prior (constructed (1 / 2) cpu 1) = 1 / (2 * (1 / 2))
  /\ device (constructed (1 / 2) cpu 1) = cpu.
Proof.
  exact (init_default_bins (1 / 2) cpu "polar" "L1" [] _ _ init_half_1).
Defined.


(* ------------------------------------------------------------------ *)
(** * Histogram matching against the proxies, for two bins *)

Lemma zip_with_const_r {A} (g : A -> R -> R) (c : R) (xs : list A) :
  zip_with g xs (map (fun _ => c) xs) = map (fun x => g x c) xs.
Proof.
  induction xs as [| x xs IH]; cbn [map zip_with]; [reflexivity | now rewrite IH].
Qed.

Lemma mean_range (scores : list R) :
  scores <> [] -> Forall (fun s => 0 <= s <= 1) scores -> 0 <= mean scores <= 1.
Proof.
  intros Hne Hall. unfold mean.
  pose proof (INR_length_pos scores Hne) as Hl.
  assert (H : 0 <= tsum scores <= INR (length scores) * 1).
  { unfold tsum. induction Hall as [| s scores Hs _ IH].
    - cbn. lra.
    - cbn [fold_right length]. rewrite S_INR.
      assert (scores = [] \/ scores <> []) as [-> | N]
        by (destruct scores; [now left | now right]).
      + cbn. lra.
      + specialize (IH N (INR_length_pos scores N)). lra. }
  split.
  - apply Rmult_le_pos; [lra |]. apply Rlt_le, Rinv_0_lt_compat, Hl.
  - apply (Rmult_le_reg_r (INR (length scores))); [assumption |].
    unfold Rdiv. rewrite Rmult_assoc, Rinv_l by lra. lra.
Qed.

Lemma l1_loss_to_one (scores : list R) :
  scores <> [] -> Forall (fun s => 0 <= s <= 1) scores ->
  F.l1_loss scores (torch.ones_like scores) = 1 - mean scores.
Proof.
  intros Hne Hall. unfold F.l1_loss, torch.ones_like, mean.
  rewrite zip_with_const_r.
  pose proof (INR_length_pos scores Hne) as Hl.
  assert (H : tsum (map (fun x => Rabs (x - 1)) scores)
              = INR (length scores) - tsum scores).
  { clear Hne Hl. unfold tsum. induction Hall as [| s scores Hs _ IH].
    - cbn. lra.
    - cbn [map fold_right length]. rewrite S_INR, IH.
      rewrite Rabs_left1 by lra. lra. }
  rewrite H. field. lra.
Qed.

Lemma abs_mean_le (p : R) (scores : list R) :
  scores <> [] ->
  Rabs (mean scores - p)
  <= F.l1_loss scores (torch.mul_scalar (torch.ones_like scores) p).
Proof.
  intros Hne. unfold F.l1_loss, torch.ones_like, torch.mul_scalar, mean.
  rewrite map_map, zip_with_const_r.
  pose proof (INR_length_pos scores Hne) as Hl.
  assert (H : Rabs (tsum scores - INR (length scores) * p)
              <= tsum (map (fun x => Rabs (x - 1 * p)) scores)).
  { clear Hne Hl. unfold tsum. induction scores as [| s scores IH].
    - cbn. rewrite Rmult_0_l, Rminus_0_r, Rabs_R0. lra.
    - cbn [map fold_right length]. rewrite S_INR.
      replace (s + fold_right Rplus 0 scores - (INR (length scores) + 1) * p)
        with ((s - 1 * p) + (fold_right Rplus 0 scores - INR (length scores) * p))
        by ring.
      eapply Rle_trans; [apply Rabs_triang |]. lra. }
  replace (tsum scores / INR (length scores) - p)
    with ((tsum scores - INR (length scores) * p) * / INR (length scores))
    by (field; lra).
  rewrite Rabs_mult, (Rabs_right (/ INR (length scores)))
    by (apply Rle_ge, Rlt_le, Rinv_0_lt_compat, Hl).
  unfold Rdiv. apply Rmult_le_compat_r; [| assumption].
  apply Rlt_le, Rinv_0_lt_compat, Hl.
Qed.

(** X15: with [num_bins = 1], for a non-empty column of scores in [0,1],
    the distance between the histogram of the scores and [proxy_p] equals
    the distance between the scores and [ones_like(scores)], the term
    [forward] uses for the positive subset. *)
Theorem histogram_distance_to_proxy_p (p : R) (dev : Device)
    (proxy dist_name : string) (log log' : list event)
    (m : LabelDistributionLoss) (scores : list R) :
  __init__ p dev 1 proxy dist_name log = (log', Return m) ->
  scores <> [] -> Forall (fun s => 0 <= s <= 1) scores ->
  exists h,
    histogram scores m = (m, Return h)
    /\ dist m h (proxy_p m) = dist m scores (torch.ones_like scores).
Proof.
  intros Hm Hne Hall.
  destruct (init_success _ _ _ _ _ _ _ _ Hm) as (_ & _ & _ & _ & _ & ->).
  eexists. split; [now apply histogram_two_bins |].
  cbn [dist proxy_p constructed]. rewrite l1_loss_to_one by assumption.
  pose proof (mean_range scores Hne Hall) as Hmu.
  unfold F.l1_loss, polar_p.
  change (Z.to_nat (1 + 1)) with 2%nat. change (Z.to_nat 1) with 1%nat.
  cbn [repeat list_set zip_with length INR]. unfold tsum. cbn [fold_right].
  rewrite (Rabs_right (1 - mean scores - 0)) by lra.
  rewrite (Rabs_left1 (mean scores - 1)) by lra.
  field.
Qed.

Lemma histogram_distance_to_proxy_p_witness :
  exists h,
    histogram [1 / 4; 1] (constructed (1 / 2) cpu 1)
    = (constructed (1 / 2) cpu 1, Return h)
    /\ dist (constructed (1 / 2) cpu 1) h (proxy_p (constructed (1 / 2) cpu 1))
       = dist (constructed (1 / 2) cpu 1) [1 / 4; 1] (torch.ones_like [1 / 4; 1]).
Proof.
  apply (histogram_distance_to_proxy_p (1 / 2) cpu "polar" "L1" [] _ _
           [1 / 4; 1] init_half_1).
  - discriminate.
  - repeat (constructor; [lra |]). constructor.
Defined.

(** X16: with [num_bins = 1], for a non-empty column of scores in [0,1],
    the distance between the histogram of the scores and [proxy_mix] is
    [|mean - prior|], and it is at most the distance between the scores and
    [ones_like(scores) * prior], the term [forward] uses for the unlabeled
    subset. *)
Theorem histogram_distance_to_proxy_mix (p : R) (dev : Device)
    (proxy dist_name : string) (log log' : list event)
    (m : LabelDistributionLoss) (scores : list R) :
  __init__ p dev 1 proxy dist_name log = (log', Return m) ->
  scores <> [] -> Forall (fun s => 0 <= s <= 1) scores ->
  exists h,
    histogram scores m = (m, Return h)
    /\ dist m h (proxy_mix m) = Rabs (mean scores - p)
    /\ dist m h (proxy_mix m)
       <= dist m scores (torch.mul_scalar (torch.ones_like scores) (prior m)).
Proof.
  intros Hm Hne Hall.
  destruct (init_success _ _ _ _ _ _ _ _ Hm) as (_ & _ & _ & _ & _ & ->).
  eexists. split; [now apply histogram_two_bins |].
  cbn [dist proxy_mix prior constructed].
  assert (E : F.l1_loss [1 - mean scores; mean scores]
                (mix_proxies p (polar_p 1) (polar_n 1))
              = Rabs (mean scores - p)).
  { unfold F.l1_loss, polar_p, polar_n, mix_proxies, np.add, np.scale.
    change (Z.to_nat (1 + 1)) with 2%nat. change (Z.to_nat 1) with 1%nat.
    cbn [repeat map list_set zip_with length INR]. unfold tsum. cbn [fold_right].
    replace (1 - mean scores - (p * 0 + (1 - p) * 1)) with (- (mean scores - p))
      by ring.
    replace (mean scores - (p * 1 + (1 - p) * 0)) with (mean scores - p) by ring.
    rewrite Rabs_Ropp. field. }
  rewrite E. split; [reflexivity |]. now apply abs_mean_le.
Qed.

Lemma histogram_distance_to_proxy_mix_witness :
  exists h,
    histogram [1 / 4; 1] (constructed (1 / 2) cpu 1)
    = (constructed (1 / 2) cpu 1, Return h)
    /\ dist (constructed (1 / 2) cpu 1) h (proxy_mix (constructed (1 / 2) cpu 1))
       = Rabs (mean [1 / 4; 1] - 1 / 2)
    /\ dist (constructed (1 / 2) cpu 1) h (proxy_mix (constructed (1 / 2) cpu 1))
       <= dist (constructed (1 / 2) cpu 1) [1 / 4; 1]
               (torch.mul_scalar (torch.ones_like [1 / 4; 1])
                                 (prior (constructed (1 / 2) cpu 1))).
Proof.
  apply (histogram_distance_to_proxy_mix (1 / 2) cpu "polar" "L1" [] _ _
           [1 / 4; 1] init_half_1).
  - discriminate.
  - repeat (constructor; [lra |]). constructor.
Defined.
